(** * gosdk-http-request-builder: the request builder and its result pipeline

    A shallow embedding of [pkg/builder/http_request_builder.go] together
    with the parts of the Go standard library it calls.  Go strings and byte
    slices are byte sequences and are both modelled by [string]; Go [int] and
    [time.Duration] by [Z]; a Go map that may be [nil] by an optional [gmap].
    A method with a pointer receiver becomes a function that takes the
    builder and returns the updated builder next to its Go results and the
    list of calls it made to its collaborators (logger, network, decoder,
    debug collector). *)

From Stdlib Require Import ZArith String Ascii List Lia DecimalString Sorted.
From stdpp Require Import base option list gmap strings sorting.

Local Open Scope string_scope.
Local Open Scope Z_scope.

(** ** Go maps *)

(** [map[string]V], which may be [nil]. *)
Abbreviation gomap V := (option (gmap string V)).

(** [len(m)]: zero for the [nil] map. *)
Definition len {V} (m : gomap V) : nat :=
  match m with
  | None => 0%nat
  | Some g => size g
  end.

(** The pairs visited by [for k, v := range m]; none for the [nil] map.  Go
    leaves the order unspecified: the model visits them in [map_to_list]
    order and [range_order_irrelevant] below shows that the loop of
    [buildURL] does not depend on it. *)
Definition range {V} (m : gomap V) : list (string * V) :=
  match m with
  | None => []
  | Some g => map_to_list g
  end.

(** ** strings *)

Module strings.

(** [strings.Cut(s, sep)] for a one-byte separator. *)
Fixpoint Cut (s : string) (sep : ascii) : string * string * bool :=
  match s with
  | EmptyString => (EmptyString, EmptyString, false)
  | String c r =>
      if Ascii.eqb c sep then (EmptyString, r, true)
      else let '(before, after, found) := Cut r sep in (String c before, after, found)
  end.

(** [strings.Contains(s, string(c))]. *)
Fixpoint Contains (s : string) (c : ascii) : bool :=
  match s with
  | EmptyString => false
  | String a r => Ascii.eqb a c || Contains r c
  end.

(** The pieces of [s] between occurrences of [sep], as repeated [Cut]
    yields them. *)
Fixpoint pieces (s : string) (sep : ascii) : list string :=
  match s with
  | EmptyString => [EmptyString]
  | String c r =>
      if Ascii.eqb c sep then EmptyString :: pieces r sep
      else match pieces r sep with
           | p :: ps => String c p :: ps
           | [] => [String c EmptyString]
           end
  end.

(** [strings.Join]. *)
Definition Join (l : list string) (sep : string) : string := String.concat sep l.

End strings.

(** ** net/url: query values *)

Module url.

(** [type Values map[string][]string]. *)
Abbreviation Values := (gmap string (list string)).

Definition between (lo hi c : ascii) : bool :=
  (N.leb (N_of_ascii lo) (N_of_ascii c) && N.leb (N_of_ascii c) (N_of_ascii hi))%bool.

Definition isAlnum (c : ascii) : bool :=
  between "a" "z" c || between "A" "Z" c || between "0" "9" c.

(** [shouldEscape(c, encodeQueryComponent)]: everything but the unreserved
    characters is escaped. *)
Definition shouldEscape (c : ascii) : bool :=
  if isAlnum c then false
  else if (Ascii.eqb c "-" || Ascii.eqb c "_" || Ascii.eqb c "." || Ascii.eqb c "~")%bool
       then false
       else true.

(** ["0123456789ABCDEF"[n]]. *)
Definition upperhex (n : N) : ascii :=
  if N.ltb n 10 then ascii_of_N (48 + n) else ascii_of_N (55 + n).

(** [QueryEscape]: a space becomes [+], an escaped byte [%XX]. *)
Fixpoint QueryEscape (s : string) : string :=
  match s with
  | EmptyString => EmptyString
  | String c r =>
      if shouldEscape c then
        if Ascii.eqb c " " then String "+" (QueryEscape r)
        else String "%" (String (upperhex (N.shiftr (N_of_ascii c) 4))
                        (String (upperhex (N.land (N_of_ascii c) 15)) (QueryEscape r)))
      else String c (QueryEscape r)
  end.

Definition ishex (c : ascii) : bool :=
  between "0" "9" c || between "a" "f" c || between "A" "F" c.

Definition unhex (c : ascii) : N :=
  if between "0" "9" c then N_of_ascii c - 48
  else if between "a" "f" c then N_of_ascii c - 97 + 10
  else if between "A" "F" c then N_of_ascii c - 65 + 10
  else 0.

(** [QueryUnescape]: [None] stands for the [EscapeError] of a [%] that is not
    followed by two hexadecimal digits. *)
Fixpoint QueryUnescape (s : string) : option string :=
  match s with
  | EmptyString => Some EmptyString
  | String c r =>
      if Ascii.eqb c "%" then
        match r with
        | String h (String l r') =>
            if (ishex h && ishex l)%bool then
              String (ascii_of_N (N.shiftl (unhex h) 4 + unhex l)) <$> QueryUnescape r'
            else None
        | _ => None
        end
      else if Ascii.eqb c "+" then String " " <$> QueryUnescape r
      else String c <$> QueryUnescape r
  end.

(** One turn of the loop of [parseQuery] on the piece [key] cut off at [&]:
    the pair is appended under its key, or skipped with an error. *)
Definition parsePair (acc : Values * option string) (key : string) : Values * option string :=
  let '(m, err) := acc in
  let first e := match err with Some _ => err | None => Some e end in
  if strings.Contains key ";" then (m, Some "invalid semicolon separator in query")
  else if String.eqb key "" then (m, err)
  else
    let '(key, value, _) := strings.Cut key "=" in
    match QueryUnescape key with
    | None => (m, first "invalid URL escape")
    | Some key =>
        match QueryUnescape value with
        | None => (m, first "invalid URL escape")
        | Some value => (<[key := (default [] (m !! key) ++ [value])%list]> m, err)
        end
    end.

(** [ParseQuery]: the values parsed and the error, if any pair was skipped. *)
Definition ParseQuery (query : string) : Values * option string :=
  fold_left parsePair (strings.pieces query "&") (∅, None).

(** [Values.Set]: [v[key] = []string{value}]. *)
Definition Set_ (v : Values) (key value : string) : Values := <[key := [value]]> v.

(** Go's [<=] on strings: bytewise lexicographic. *)
Definition string_le (a b : string) : Prop := String.leb a b = true.

#[global] Instance string_le_dec a b : Decision (string_le a b).
Proof. unfold string_le. apply _. Defined.

(** The keys of [v] after [slices.Sort]. *)
Definition sortedKeys (v : Values) : list string :=
  merge_sort string_le (fst <$> map_to_list v).

(** The [key=value] pairs that [Encode] writes for one key, in the order of
    its values. *)
Definition encodeKey (v : Values) (k : string) : list string :=
  (fun x => QueryEscape k ++ "=" ++ QueryEscape x)%string <$> default [] (v !! k).

(** [Values.Encode]: the pairs of the keys in sorted order, joined by [&]. *)
Definition Encode (v : Values) : string :=
  strings.Join (mjoin (encodeKey v <$> sortedKeys v)) "&".

(** What the builder and [net/http] use of [*url.URL]: [url.Parse], the
    [RawQuery] field, [String], and the assignment
    [u.Host = removeEmptyPort(u.Host)] that [http.NewRequestWithContext]
    makes on the URL it has parsed (a host that ends in a colon loses the
    colon).  The error of [Parse] is given by its message. *)
Class NetURL := {
  URL : Type;
  Parse : string -> URL + string;
  RawQuery : URL -> string;
  set_RawQuery : URL -> string -> URL;
  String_ : URL -> string;
  removeEmptyPort : URL -> URL
}.

(** [URL.Query]: [ParseQuery] on the raw query, its error dropped. *)
Definition Query `{NetURL} (u : URL) : Values := fst (ParseQuery (RawQuery u)).

End url.

(** ** io *)

Module io.

(** What successive [Read] calls on a response body yield: some bytes and
    more to come, the end of the body, or a failure. *)
Inductive Reader :=
| EOF
| Fail (err : string)
| Chunk (data : string) (rest : Reader).

(** [io.ReadAll]: reads until the end or the first error and returns the
    bytes read so far together with that error ([EOF] is no error). *)
Fixpoint ReadAll (r : Reader) : string * option string :=
  match r with
  | EOF => ("", None)
  | Fail err => ("", Some err)
  | Chunk data rest => let '(b, err) := ReadAll rest in ((data ++ b)%string, err)
  end.

End io.

(** ** net/http *)

Module http.

Definition MethodGet := "GET".
Definition MethodPost := "POST".
Definition MethodPut := "PUT".
Definition MethodPatch := "PATCH".
Definition MethodDelete := "DELETE".

Fixpoint all (p : ascii -> bool) (s : string) : bool :=
  match s with
  | EmptyString => true
  | String c r => p c && all p r
  end.

(** [httpguts.IsTokenRune], also [validHeaderFieldByte]. *)
Definition isToken (c : ascii) : bool :=
  url.isAlnum c || strings.Contains "!#$%&'*+-.^_`|~" c.

(** [validMethod]. *)
Definition validMethod (method : string) : bool :=
  negb (String.eqb method "") && all isToken method.

Definition toUpper (c : ascii) : ascii :=
  if url.between "a" "z" c then ascii_of_N (N_of_ascii c - 32) else c.
Definition toLower (c : ascii) : ascii :=
  if url.between "A" "Z" c then ascii_of_N (N_of_ascii c + 32) else c.

Fixpoint canonical (upper : bool) (s : string) : string :=
  match s with
  | EmptyString => EmptyString
  | String c r =>
      let c := if upper then toUpper c else toLower c in
      String c (canonical (Ascii.eqb c "-") r)
  end.

(** [textproto.CanonicalMIMEHeaderKey]: a key of token bytes gets an upper
    case letter first and after each dash and lower case letters elsewhere;
    any other key is left as it is. *)
Definition CanonicalMIMEHeaderKey (s : string) : string :=
  if all isToken s then canonical true s else s.

(** [type Header map[string][]string]. *)
Abbreviation Header := (gmap string (list string)).

(** [Header.Set]. *)
Definition Header_Set (h : Header) (key value : string) : Header :=
  <[CanonicalMIMEHeaderKey key := [value]]> h.

(** The fields of [*http.Request] that the builder determines. *)
Record Request {Ctx : Type} `{url.NetURL} := {
  ctx : Ctx;
  Method : string;
  URL : url.URL;
  Header_ : Header;
  Body : option string
}.
Arguments Request Ctx {_}.

(** Why [NewRequestWithContext] refuses to build a request. *)
Inductive error :=
| InvalidMethod (method : string)   (* "net/http: invalid method %q" *)
| NilContext                        (* "net/http: nil Context" *)
| ParseError (err : string).        (* the error of [url.Parse] *)

(** [http.NewRequestWithContext]: an empty method means GET; the method must
    be a token, the context non-nil and the URL must parse.  The URL of the
    request is the parsed one with the empty port removed from its host.  The
    body is the reader it is given; [http.NoBody], which it puts in the place
    of a reader with no bytes left, reads as that reader does, and [Some] of
    the empty string stands for both. *)
Definition NewRequestWithContext {Ctx} `{url.NetURL}
    (ctx : option Ctx) (method rawurl : string) (body : option string)
  : Request Ctx + error :=
  let method := if String.eqb method "" then "GET" else method in
  if negb (validMethod method) then inr (InvalidMethod method)
  else match ctx with
       | None => inr NilContext
       | Some c =>
           match url.Parse rawurl with
           | inr err => inr (ParseError err)
           | inl u =>
               inl {| ctx := c; Method := method; URL := url.removeEmptyPort u;
                      Header_ := ∅; Body := body |}
           end
       end.

(** [req.Header.Set(k, v)]. *)
Definition setHeader {Ctx} `{url.NetURL} (req : Request Ctx) (kv : string * string)
  : Request Ctx :=
  {| ctx := ctx req; Method := Method req; URL := URL req;
     Header_ := Header_Set (Header_ req) (fst kv) (snd kv); Body := Body req |}.

(** The fields of [*http.Response] that the builder could read ([Header] and
    [Body] under the names [RespHeader] and [RespBody]). *)
Record Response := {
  Status : string;
  StatusCode : Z;
  RespHeader : Header;
  RespBody : io.Reader
}.

End http.

(** ** fmt *)

(** [%d] of an [int]. *)
Definition itoa (n : Z) : string := NilZero.string_of_int (Z.to_int n).

(** ** The package's data *)

(** The zero value of a Go type. *)
Class Zero (A : Type) := zero : A.
#[global] Hint Mode Zero ! : typeclass_instances.

#[global] Instance Zero_int : Zero Z := 0.
#[global] Instance Zero_string : Zero string := "".
#[global] Instance Zero_bool : Zero bool := false.

(** [Response[E]], the expected shape of a response body. *)
Record Response {E : Type} := {
  Success : bool;
  Data : E
}.
Arguments Response E : clear implicits.

#[global] Instance Zero_Response {E} `{Zero E} : Zero (Response E) :=
  {| Success := false; Data := zero |}.

(** [HttpResponse[E]]. *)
Record HttpResponse {E any : Type} := {
  Status : string;
  Body : string;
  StatusCode : Z;
  Url : string;
  Method : string;
  Headers : gomap string;
  Result : Response E;
  ErrorsMap : gomap any
}.
Arguments HttpResponse E any : clear implicits.

(** [HttpStatement], the record handed to the debug collector (its fields
    carry the prefix [st_] to keep them apart from those of [HttpResponse]). *)
Record HttpStatement {any : Type} := {
  st_Time : string;
  st_Status : Z;
  st_Timeout : string;
  st_Method : string;
  st_Url : string;
  st_Error : string;
  st_Body : string;
  st_QueryParams : gomap string;
  st_Headers : gomap string;
  st_Response : gomap any;
  st_Duration : Z
}.
Arguments HttpStatement any : clear implicits.

(** The errors that the builder returns.  Go passes the collaborator's error
    value on unchanged; the constructor records which call produced it. *)
Inductive error :=
| InvalidURL (err : string)                    (* from [url.Parse] in [buildURL] *)
| RequestConstructionError (err : http.error)  (* from [http.NewRequestWithContext] *)
| NetworkError (err : string)                  (* from [client.Do] *)
| UnmarshalError (err : string)                (* from [json.Unmarshal] *)
| ServerError (msg : string).                  (* [fmt.Errorf] on a status of 500 or more *)

(** The collaborators of the builder outside the standard URL code:
    the serializers, the decoder, the network, the clock and gosdk-core. *)
Class Collaborators (E : Type) {NU : url.NetURL} := {
  (** Go's [any], the values handed to the body helpers. *)
  any : Type;
  (** [context.Context], when not nil. *)
  Context : Type;
  (** [json.Marshal] and [xml.Marshal]: the bytes or the error message. *)
  json_Marshal : any -> string + string;
  xml_Marshal : any -> string + string;
  (** [json.Unmarshal(data, &r)]: what it leaves in [r], and its error. *)
  json_Unmarshal : string -> Response E -> Response E * option string;
  (** [client.Do(req)] of a client with the given timeout. *)
  client_Do : Z -> http.Request Context -> http.Response + string;
  (** [time.Since(start)] around the call of [do]. *)
  time_Since : Z;
  (** [debug.GetDebugFromContext(ctx) != nil]. *)
  GetDebugFromContext : option Context -> bool;
  (** [helpers.GetDurationAsString]. *)
  GetDurationAsString : Z -> string;
  (** [constants.JSON]. *)
  constants_JSON : string
}.

(** The calls a builder makes to its collaborators, in order. *)
Inductive Event {E : Type} {NU : url.NetURL} {W : Collaborators E} :=
| LogError (err : string)                                 (* [logger.LogError] *)
| ClientDo (timeout : Z) (req : http.Request Context)     (* [client.Do] *)
| Unmarshal (data : string)                               (* [json.Unmarshal] *)
| DebugCat (name : string)                                (* [d.Cat] *)
| DebugAddStatement (name : string) (d : Z) (sts : list (HttpStatement any))
| DebugCalculateTotalTime.

Module httpheader.
(** Modelled from the spec: the constant [httpheader.ContentType] of
    gookit/goutil, which is not part of this repository; the spec gives the
    header name as [Content-Type]. *)
Definition ContentType : string := "Content-Type".
End httpheader.

(** Go's results of a call, or the run-time panic of dereferencing [nil]. *)
Inductive outcome (A : Type) :=
| Ret (a : A)
| Panic.
Arguments Ret {A} a.
Arguments Panic {A}.

(** ** The builder *)

Section Builder.
Context {E : Type} {ZE : Zero E} {NU : url.NetURL} {W : Collaborators E}.

(** [HttpRequestBuilder[E]].  [body] is the reader over the serialized body
    ([nil] when there is none), given by the bytes it was created over: how
    far a send has read it is not recorded, so what is stated below about
    the body of a request is stated for builders whose body has not been
    sent yet.  The fields [transport], a pass-through around the default
    transport whose two hooks do nothing, and [request], which no method
    assigns, are left out. *)
Record HttpRequestBuilder := {
  url : string;
  method : string;
  headers : gomap string;
  queryParams : gomap string;
  body : option string;
  rawBodyBytes : string;
  timeout : Z;
  response : option (HttpResponse E any);
  responseDataPresentation : string;
  ctx : option Context;
  execTime : Z;
  throwUnmarshalError : bool
}.

(** *** Constructors *)

Definition time_Second : Z := 1000000000.

Definition newBuilder (ctx : option Context) (rawURL method : string) : HttpRequestBuilder :=
  {| url := rawURL;
     method := method;
     headers := None;
     queryParams := None;
     body := None;
     rawBodyBytes := "";
     timeout := 30 * time_Second;
     response := None;
     responseDataPresentation := constants_JSON;
     ctx := ctx;
     execTime := 0;
     throwUnmarshalError := true |}.

Definition NewPostHttpRequestBuilder ctx url := newBuilder ctx url http.MethodPost.
Definition NewPutHttpRequestBuilder ctx url := newBuilder ctx url http.MethodPut.
Definition NewPatchHttpRequestBuilder ctx url := newBuilder ctx url http.MethodPatch.
Definition NewGetHttpRequestBuilder ctx url := newBuilder ctx url http.MethodGet.
Definition NewDeleteHttpRequestBuilder ctx url := newBuilder ctx url http.MethodDelete.

(** *** Field assignments *)

Definition with_headers (h : gomap string) (b : HttpRequestBuilder) :=
  {| url := url b; method := method b; headers := h; queryParams := queryParams b;
     body := body b; rawBodyBytes := rawBodyBytes b; timeout := timeout b;
     response := response b; responseDataPresentation := responseDataPresentation b;
     ctx := ctx b; execTime := execTime b; throwUnmarshalError := throwUnmarshalError b |}.

Definition with_queryParams (q : gomap string) (b : HttpRequestBuilder) :=
  {| url := url b; method := method b; headers := headers b; queryParams := q;
     body := body b; rawBodyBytes := rawBodyBytes b; timeout := timeout b;
     response := response b; responseDataPresentation := responseDataPresentation b;
     ctx := ctx b; execTime := execTime b; throwUnmarshalError := throwUnmarshalError b |}.

Definition with_timeout (t : Z) (b : HttpRequestBuilder) :=
  {| url := url b; method := method b; headers := headers b; queryParams := queryParams b;
     body := body b; rawBodyBytes := rawBodyBytes b; timeout := t;
     response := response b; responseDataPresentation := responseDataPresentation b;
     ctx := ctx b; execTime := execTime b; throwUnmarshalError := throwUnmarshalError b |}.

Definition with_throwUnmarshalError (v : bool) (b : HttpRequestBuilder) :=
  {| url := url b; method := method b; headers := headers b; queryParams := queryParams b;
     body := body b; rawBodyBytes := rawBodyBytes b; timeout := timeout b;
     response := response b; responseDataPresentation := responseDataPresentation b;
     ctx := ctx b; execTime := execTime b; throwUnmarshalError := v |}.

(** [b.rawBodyBytes = data; b.body = bytes.NewReader(data)]. *)
Definition with_body (data : string) (b : HttpRequestBuilder) :=
  {| url := url b; method := method b; headers := headers b; queryParams := queryParams b;
     body := Some data; rawBodyBytes := data; timeout := timeout b;
     response := response b; responseDataPresentation := responseDataPresentation b;
     ctx := ctx b; execTime := execTime b; throwUnmarshalError := throwUnmarshalError b |}.

Definition with_response (r : option (HttpResponse E any)) (b : HttpRequestBuilder) :=
  {| url := url b; method := method b; headers := headers b; queryParams := queryParams b;
     body := body b; rawBodyBytes := rawBodyBytes b; timeout := timeout b;
     response := r; responseDataPresentation := responseDataPresentation b;
     ctx := ctx b; execTime := execTime b; throwUnmarshalError := throwUnmarshalError b |}.

Definition with_execTime (t : Z) (b : HttpRequestBuilder) :=
  {| url := url b; method := method b; headers := headers b; queryParams := queryParams b;
     body := body b; rawBodyBytes := rawBodyBytes b; timeout := timeout b;
     response := response b; responseDataPresentation := responseDataPresentation b;
     ctx := ctx b; execTime := t; throwUnmarshalError := throwUnmarshalError b |}.

(** [b.response.Status = ...; b.response.StatusCode = ...]. *)
Definition with_status (status : string) (code : Z) (r : HttpResponse E any) :=
  {| Status := status; Body := Body r; StatusCode := code; Url := Url r;
     Method := Method r; Headers := Headers r; Result := Result r;
     ErrorsMap := ErrorsMap r |}.

(** [b.response.Body = body]. *)
Definition with_Body (data : string) (r : HttpResponse E any) :=
  {| Status := Status r; Body := data; StatusCode := StatusCode r; Url := Url r;
     Method := Method r; Headers := Headers r; Result := Result r;
     ErrorsMap := ErrorsMap r |}.

(** [b.response.Result = r]. *)
Definition with_Result (res : Response E) (r : HttpResponse E any) :=
  {| Status := Status r; Body := Body r; StatusCode := StatusCode r; Url := Url r;
     Method := Method r; Headers := Headers r; Result := res;
     ErrorsMap := ErrorsMap r |}.

(** *** Configuration *)

Definition SetRequestHeaders (h : gomap string) (b : HttpRequestBuilder) := with_headers h b.
Definition SetQueryParams (q : gomap string) (b : HttpRequestBuilder) := with_queryParams q b.
Definition SetRequestTimeout (t : Z) (b : HttpRequestBuilder) := with_timeout t b.
Definition SetThrowUnmarshalError (v : bool) (b : HttpRequestBuilder) :=
  with_throwUnmarshalError v b.

(** *** Utils *)

Definition ensureHeaders (b : HttpRequestBuilder) : HttpRequestBuilder :=
  match headers b with
  | None => with_headers (Some ∅) b
  | Some _ => b
  end.

(** [b.headers[key] = value], on a map that [ensureHeaders] made non-nil
    (assigning into the [nil] map would panic; it never happens). *)
Definition setHeader (key value : string) (b : HttpRequestBuilder) : HttpRequestBuilder :=
  with_headers (Some (<[key := value]> (default ∅ (headers b)))) b.

(** The loop [for k, v := range b.queryParams { q.Set(k, v) }] over the
    pairs [kvs]. *)
Definition setAll (q : url.Values) (kvs : list (string * string)) : url.Values :=
  fold_left (fun q kv => url.Set_ q (fst kv) (snd kv)) kvs q.

Definition buildURL (b : HttpRequestBuilder) : string + error :=
  if decide (len (queryParams b) = 0%nat) then inl (url b)
  else
    match url.Parse (url b) with
    | inr err => inr (InvalidURL err)
    | inl u =>
        let q := setAll (url.Query u) (range (queryParams b)) in
        let u := url.set_RawQuery u (url.Encode q) in
        inl (url.String_ u)
    end.

(** *** Body helpers *)

Definition SetJSONBody (v : any) (b : HttpRequestBuilder) : HttpRequestBuilder * list Event :=
  match json_Marshal v with
  | inr err => (b, [LogError err])
  | inl data =>
      let b := with_body data b in
      let b := ensureHeaders b in
      (setHeader httpheader.ContentType "application/json" b, [])
  end.

Definition SetXMLBody (v : any) (b : HttpRequestBuilder) : HttpRequestBuilder * list Event :=
  match xml_Marshal v with
  | inr err => (b, [LogError err])
  | inl data =>
      let b := with_body data b in
      let b := ensureHeaders b in
      (setHeader httpheader.ContentType "application/xml" b, [])
  end.

(** *** Execution *)

(** [&HttpResponse[E]{Url: finalURL, Method: b.method}]. *)
Definition newResponse (finalURL method : string) : HttpResponse E any :=
  {| Status := ""; Body := ""; StatusCode := 0; Url := finalURL; Method := method;
     Headers := None; Result := zero; ErrorsMap := None |}.

(** The client is built from [b.timeout] and the transport; the headers are
    set on the request one by one ([http.Header.Set] canonicalises each key:
    of two configured keys that differ only in case, the one Go visits last
    wins, and the model visits them in [map_to_list] order); the body of the
    response is closed on return.  The send reads from the reader [b.body];
    the field itself is not assigned. *)
Definition do (b : HttpRequestBuilder) : HttpRequestBuilder * option error * list Event :=
  let b := ensureHeaders b in
  match buildURL b with
  | inr err => (b, Some err, [])
  | inl finalURL =>
      match http.NewRequestWithContext (ctx b) (method b) finalURL (body b) with
      | inr err => (b, Some (RequestConstructionError err), [])
      | inl req =>
          let req := fold_left http.setHeader (range (headers b)) req in
          let resp := client_Do (timeout b) req in
          let r := newResponse finalURL (method b) in
          match resp with
          | inr err =>
              (with_response (Some r) b, Some (NetworkError err), [ClientDo (timeout b) req])
          | inl resp =>
              let r := with_status (http.Status resp) (http.StatusCode resp) r in
              let '(data, _) := io.ReadAll (http.RespBody resp) in
              let r := with_Body data r in
              (with_response (Some r) b, None, [ClientDo (timeout b) req])
          end
      end
  end.

Definition Do (b : HttpRequestBuilder) : HttpRequestBuilder * option error * list Event :=
  let '(b, err, evs) := do b in
  let b := with_execTime time_Since b in
  (b, err, evs).

(** *** Logging and debug *)

Definition setDebugInfo (b : HttpRequestBuilder) (r : HttpResponse E any) : list Event :=
  if negb (GetDebugFromContext (ctx b)) then []
  else
    let st := {| st_Time := GetDurationAsString (execTime b);
                 st_Status := StatusCode r;
                 st_Timeout := "";
                 st_Method := method b;
                 st_Url := Url r;
                 st_Error := "";
                 st_Body := rawBodyBytes b;
                 st_QueryParams := queryParams b;
                 st_Headers := headers b;
                 st_Response := None;
                 st_Duration := execTime b |} in
    [DebugCat "http"; DebugAddStatement "http" (execTime b) [st]; DebugCalculateTotalTime].

(** *** Result *)

(** [fmt.Errorf("http %s %s -> %d", method, url, code)]. *)
Definition serverErrorf (method url : string) (code : Z) : string :=
  ("http " ++ method ++ " " ++ url ++ " -> " ++ itoa code)%string.

Definition GetResult (b : HttpRequestBuilder)
  : HttpRequestBuilder * outcome (option (HttpResponse E any) * option error) * list Event :=
  let '(b, err, evs) := Do b in
  match err with
  | Some err => (b, Ret (None, Some err), evs)
  | None =>
      match response b with
      | None => (b, Panic, evs)
      | Some resp =>
          let '(r, uerr) := json_Unmarshal (Body resp) zero in
          let evs := (evs ++ [Unmarshal (Body resp)])%list in
          match uerr, throwUnmarshalError b with
          | Some err, true => (b, Ret (None, Some (UnmarshalError err)), evs)
          | _, _ =>
              let resp := with_Result r resp in
              let b := with_response (Some resp) b in
              let evs := (evs ++ setDebugInfo b resp)%list in
              if 500 <=? StatusCode resp then
                (b, Ret (None, Some (ServerError
                                       (serverErrorf (method b) (Url resp) (StatusCode resp)))),
                 evs)
              else (b, Ret (Some resp, None), evs)
          end
      end
  end.

End Builder.

(** ** encoding/json: decoding into [Response[E]]

    [json.Unmarshal] first checks that the whole input is one JSON text and
    touches nothing when it is not.  It then stores the value into the
    target field by field: a value of the wrong type for its field is
    skipped, the first such error is remembered, the remaining fields are
    still stored, and the remembered error is returned at the end.  The model
    covers ASCII member names and [\u] escapes outside the surrogate range. *)

Module json.

#[warnings="-register-all"]
Inductive value :=
| Null
| Bool (b : bool)
| Number (lit : string)
| Str (s : string)
| Array (elems : list value)
| Object (members : list (string * value)).

Definition isSpace (c : ascii) : bool :=
  Ascii.eqb c " " || Ascii.eqb c "009" || Ascii.eqb c "010" || Ascii.eqb c "013".

Fixpoint skipSpace (s : string) : string :=
  match s with
  | String c r => if isSpace c then skipSpace r else s
  | EmptyString => s
  end.

Definition isDigit (c : ascii) : bool := url.between "0" "9" c.

(** The longest prefix of digits, and the rest. *)
Fixpoint digits (s : string) : string * string :=
  match s with
  | String c r => if isDigit c then let '(d, r') := digits r in (String c d, r') else ("", s)
  | EmptyString => ("", "")
  end.

(** A number literal at the head of [s]: an optional minus sign, [0] or
    digits that do not start with [0], an optional fraction of a dot and
    digits, an optional exponent of [e] or [E], a sign and digits. *)
Definition number (s : string) : option (string * string) :=
  let '(sign, s) := match s with String "-" r => ("-", r) | _ => ("", s) end in
  let '(int, s) := digits s in
  match int with
  | EmptyString => None
  | String "0" (String _ _) => None
  | _ =>
      let frac :=
        match s with
        | String "." r =>
            let '(d, r') := digits r in
            if String.eqb d "" then None else Some (("." ++ d)%string, r')
        | _ => Some ("", s)
        end in
      '(frac, s) ← frac;
      let exp :=
        match s with
        | String e r =>
            if (Ascii.eqb e "e" || Ascii.eqb e "E")%bool then
              let '(sg, r) := match r with
                              | String "+" r' => ("+", r')
                              | String "-" r' => ("-", r')
                              | _ => ("", r)
                              end in
              let '(d, r') := digits r in
              if String.eqb d "" then None else Some ((String e sg ++ d)%string, r')
            else Some ("", s)
        | _ => Some ("", s)
        end in
      '(exp, s) ← exp;
      Some ((sign ++ int ++ frac ++ exp)%string, s)
  end.

(** The UTF-8 bytes of a code point below [0x10000]. *)
Definition utf8 (n : N) : string :=
  if N.ltb n 128 then String (ascii_of_N n) ""
  else if N.ltb n 2048 then
    String (ascii_of_N (192 + N.shiftr n 6)) (String (ascii_of_N (128 + N.land n 63)) "")
  else
    String (ascii_of_N (224 + N.shiftr n 12))
      (String (ascii_of_N (128 + N.land (N.shiftr n 6) 63))
         (String (ascii_of_N (128 + N.land n 63)) "")).

(** The rest of a string literal after its opening quote: the bytes it
    denotes and what follows the closing quote. *)
Fixpoint chars (s : string) : option (string * string) :=
  match s with
  | EmptyString => None
  | String c r =>
      if Ascii.eqb c "034" then Some ("", r)
      else if N.ltb (N_of_ascii c) 32 then None
      else if Ascii.eqb c "\" then
        match r with
        | String "u" (String h1 (String h2 (String h3 (String h4 r')))) =>
            if (url.ishex h1 && url.ishex h2 && url.ishex h3 && url.ishex h4)%bool then
              let n := (url.unhex h1 * 4096 + url.unhex h2 * 256
                        + url.unhex h3 * 16 + url.unhex h4)%N in
              let n := if (N.leb 55296 n && N.ltb n 57344)%bool then 65533%N else n in
              '(t, rest) ← chars r'; Some ((utf8 n ++ t)%string, rest)
            else None
        | String e r' =>
            let one (a : ascii) := '(t, rest) ← chars r'; Some (String a t, rest) in
            if Ascii.eqb e "034" then one "034"%char
            else if Ascii.eqb e "\" then one "\"%char
            else if Ascii.eqb e "/" then one "/"%char
            else if Ascii.eqb e "b" then one "008"%char
            else if Ascii.eqb e "f" then one "012"%char
            else if Ascii.eqb e "n" then one "010"%char
            else if Ascii.eqb e "r" then one "013"%char
            else if Ascii.eqb e "t" then one "009"%char
            else None
        | EmptyString => None
        end
      else '(t, rest) ← chars r; Some (String c t, rest)
  end.

Definition literal (lit : string) (v : value) (s : string) : option (value * string) :=
  if String.prefix lit s then Some (v, String.substring (String.length lit)
                                         (String.length s - String.length lit) s)
  else None.

(** One JSON value at the head of [s], after white space.  [fuel] bounds the
    nesting and the number of elements; [parse] gives enough of it. *)
Fixpoint parseValue (fuel : nat) (s : string) : option (value * string) :=
  match fuel with
  | O => None
  | S fuel =>
      match skipSpace s with
      | EmptyString => None
      | String c r as s' =>
          if Ascii.eqb c "n" then literal "null" Null s'
          else if Ascii.eqb c "t" then literal "true" (Bool true) s'
          else if Ascii.eqb c "f" then literal "false" (Bool false) s'
          else if Ascii.eqb c "034" then '(t, rest) ← chars r; Some (Str t, rest)
          else if Ascii.eqb c "[" then
            match skipSpace r with
            | String "]" rest => Some (Array [], rest)
            | _ => '(l, rest) ← parseElems fuel r; Some (Array l, rest)
            end
          else if Ascii.eqb c "{" then
            match skipSpace r with
            | String "}" rest => Some (Object [], rest)
            | _ => '(l, rest) ← parseMembers fuel r; Some (Object l, rest)
            end
          else '(lit, rest) ← number s'; Some (Number lit, rest)
      end
  end
with parseElems (fuel : nat) (s : string) : option (list value * string) :=
  match fuel with
  | O => None
  | S fuel =>
      '(v, rest) ← parseValue fuel s;
      match skipSpace rest with
      | String "," rest => '(l, rest) ← parseElems fuel rest; Some (v :: l, rest)
      | String "]" rest => Some ([v], rest)
      | _ => None
      end
  end
with parseMembers (fuel : nat) (s : string) : option (list (string * value) * string) :=
  match fuel with
  | O => None
  | S fuel =>
      match skipSpace s with
      | String "034" r =>
          '(k, rest) ← chars r;
          match skipSpace rest with
          | String ":" rest =>
              '(v, rest) ← parseValue fuel rest;
              match skipSpace rest with
              | String "," rest => '(l, rest) ← parseMembers fuel rest; Some ((k, v) :: l, rest)
              | String "}" rest => Some ([(k, v)], rest)
              | _ => None
              end
          | _ => None
          end
      | _ => None
      end
  end.

(** The JSON text [data] as a value; [None] is the [SyntaxError] of
    [checkValid]. *)
Definition parse (data : string) : option value :=
  '(v, rest) ← parseValue (2 * String.length data + 2) data;
  if String.eqb (skipSpace rest) "" then Some v else None.

(** The errors of the decoder are given by the name of their Go type.  The
    text that their [Error] method prints (the offending byte and its
    offset, or the JSON kind, the field and the Go type that do not match)
    is not modelled, and no statement below depends on it. *)
Definition SyntaxError : string := "json.SyntaxError".
Definition UnmarshalTypeError : string := "json.UnmarshalTypeError".

(** How a JSON value is stored into a Go value of type [A]: the new value
    and the error when the JSON value does not fit. *)
Class Store (A : Type) := store : value -> A -> A * option string.
#[global] Hint Mode Store ! : typeclass_instances.

#[global] Instance Store_bool : Store bool := fun v old =>
  match v with
  | Null => (old, None)
  | Bool b => (b, None)
  | _ => (old, Some UnmarshalTypeError)
  end.

#[global] Instance Store_string : Store string := fun v old =>
  match v with
  | Null => (old, None)
  | Str s => (s, None)
  | _ => (old, Some UnmarshalTypeError)
  end.

Fixpoint natOfDigits (acc : N) (s : string) : N :=
  match s with
  | String c r => natOfDigits (acc * 10 + (N_of_ascii c - 48)) r
  | EmptyString => acc
  end.

(** [strconv.ParseInt(lit, 10, 64)] on a JSON number literal. *)
Definition ParseInt (lit : string) : option Z :=
  let '(neg, s) := match lit with String "-" r => (true, r) | _ => (false, lit) end in
  if (negb (String.eqb s "") && http.all isDigit s)%bool then
    let n := Z.of_N (natOfDigits 0 s) in
    let n := if neg then - n else n in
    if ((- 2 ^ 63 <=? n) && (n <? 2 ^ 63))%bool then Some n else None
  else None.

(** A Go [int]. *)
#[global] Instance Store_int : Store Z := fun v old =>
  match v with
  | Null => (old, None)
  | Number lit =>
      match ParseInt lit with
      | Some n => (n, None)
      | None => (old, Some UnmarshalTypeError)
      end
  | _ => (old, Some UnmarshalTypeError)
  end.

Fixpoint lower (s : string) : string :=
  match s with
  | String c r => String (http.toLower c) (lower r)
  | EmptyString => EmptyString
  end.

(** Whether the member name [key] selects the field tagged [name]: the same
    name up to the case of its letters. *)
Definition selects (key name : string) : bool := String.eqb (lower key) (lower name).

(** The first error is kept. *)
Definition saveError (saved new : option string) : option string :=
  match saved with
  | Some _ => saved
  | None => new
  end.

(** One member of an object stored into the struct: [success] and [data]
    select their fields, any other member is skipped. *)
Definition storeMember {E} `{Store E} (acc : Response E * option string)
    (m : string * value) : Response E * option string :=
  let '(r, saved) := acc in
  let '(key, v) := m in
  if selects key "success" then
    let '(b, err) := store v (Success r) in
    ({| Success := b; Data := Data r |}, saveError saved err)
  else if selects key "data" then
    let '(d, err) := store v (Data r) in
    ({| Success := Success r; Data := d |}, saveError saved err)
  else (r, saved).

(** [json.Unmarshal(data, &r)] for [r] of type [Response[E]]. *)
Definition Unmarshal {E} `{Store E} (data : string) (r : Response E)
  : Response E * option string :=
  match parse data with
  | None => (r, Some SyntaxError)
  | Some Null => (r, None)
  | Some (Object members) => fold_left storeMember members (r, None)
  | Some _ => (r, Some UnmarshalTypeError)
  end.

End json.

(** ** Vocabulary of the statements *)

(** What [QueryEscape] writes needs no further escaping: letters, digits,
    the four marks, [+] for a space and [%XX]. *)
Definition querySafe (c : ascii) : bool :=
  negb (url.shouldEscape c) || Ascii.eqb c "+" || Ascii.eqb c "%".

(** The characters of an encoded query: those, and the two that separate
    key from value and pair from pair. *)
Definition queryChar (c : ascii) : bool :=
  querySafe c || Ascii.eqb c "=" || Ascii.eqb c "&".

Section Vocabulary.
Context {E : Type} {ZE : Zero E} {NU : url.NetURL} {W : Collaborators E}.

(** The resolved URL and the request that [do] hands to the client, when it
    gets that far: the URL composes and the request is built. *)
Definition outbound (b : HttpRequestBuilder) : option (string * http.Request Context) :=
  let b := ensureHeaders b in
  match buildURL b with
  | inr _ => None
  | inl finalURL =>
      match http.NewRequestWithContext (ctx b) (method b) finalURL (body b) with
      | inr _ => None
      | inl req => Some (finalURL, fold_left http.setHeader (range (headers b)) req)
      end
  end.

(** The response record that [do] has stored once it has read [resp]. *)
Definition received (finalURL method : string) (resp : http.Response) : HttpResponse E any :=
  {| Status := http.Status resp;
     Body := fst (io.ReadAll (http.RespBody resp));
     StatusCode := http.StatusCode resp;
     Url := finalURL;
     Method := method;
     Headers := None;
     Result := zero;
     ErrorsMap := None |}.

(** The value stored under [Content-Type] in the builder's headers. *)
Definition contentType (b : HttpRequestBuilder) : option string :=
  headers b ≫= fun h => h !! httpheader.ContentType.

(** The two body helpers, by the serialization they use. *)
Inductive BodyKind := JSONBody | XMLBody.

Definition Marshal (k : BodyKind) : any -> string + string :=
  match k with
  | JSONBody => json_Marshal
  | XMLBody => xml_Marshal
  end.

Definition SetBody (k : BodyKind) : any -> HttpRequestBuilder -> HttpRequestBuilder * list Event :=
  match k with
  | JSONBody => SetJSONBody
  | XMLBody => SetXMLBody
  end.

Definition mediaType (k : BodyKind) : string :=
  match k with
  | JSONBody => "application/json"
  | XMLBody => "application/xml"
  end.

(** What [GetResult] returns once the envelope [r] is stored: the error of a
    status of 500 or more, or else the stored response. *)
Definition classified (b : HttpRequestBuilder) (finalURL : string) (hresp : http.Response)
    (r : Response E) : outcome (option (HttpResponse E any) * option error) :=
  if 500 <=? http.StatusCode hresp
  then Ret (None, Some (ServerError
                          (serverErrorf (method b) finalURL (http.StatusCode hresp))))
  else Ret (Some (with_Result r (received finalURL (method b) hresp)), None).

(** The builders that the constructor, the configuration calls, the body
    helpers and [Do] produce, that is without any call of [GetResult]. *)
Inductive DoOnly : HttpRequestBuilder -> Prop :=
| DoOnly_new ctx rawURL method : DoOnly (newBuilder ctx rawURL method)
| DoOnly_headers h b : DoOnly b -> DoOnly (SetRequestHeaders h b)
| DoOnly_query q b : DoOnly b -> DoOnly (SetQueryParams q b)
| DoOnly_timeout t b : DoOnly b -> DoOnly (SetRequestTimeout t b)
| DoOnly_throw v b : DoOnly b -> DoOnly (SetThrowUnmarshalError v b)
| DoOnly_body k v b : DoOnly b -> DoOnly (fst (SetBody k v b))
| DoOnly_Do b : DoOnly b -> DoOnly (fst (fst (Do b))).

End Vocabulary.

(** ** A concrete world to run the builder in *)

(** [net/url] on URLs whose scheme, authority, path and fragment are already
    written the way [URL.String] writes them: [Parse] refuses control
    characters, cuts off the fragment and then the query; [String] puts the
    parts back together.  The error of [Parse] is given by the text of the
    cause that [url.Error] wraps. *)
Module plain_url.

Record URL := {
  head : string;
  ForceQuery : bool;
  RawQuery : string;
  Fragment : string
}.

Definition isCTL (c : ascii) : bool :=
  N.ltb (N_of_ascii c) 32 || N.eqb (N_of_ascii c) 127.

Definition Parse (rawURL : string) : URL + string :=
  let '(u, frag, _) := strings.Cut rawURL "#" in
  if negb (http.all (fun c => negb (isCTL c)) u)
  then inr "net/url: invalid control character in URL"
  else
    let '(rest, query, found) := strings.Cut u "?" in
    inl {| head := rest; ForceQuery := found && String.eqb query "";
           RawQuery := query; Fragment := frag |}.

Definition String_ (u : URL) : string :=
  (head u
   ++ (if (ForceQuery u || negb (String.eqb (RawQuery u) ""))%bool
       then "?" ++ RawQuery u else "")
   ++ (if String.eqb (Fragment u) "" then "" else "#" ++ Fragment u))%string.

(** [getScheme]: the scheme before the first colon and what follows the
    colon, when the text starts with a scheme, which is made of letters,
    digits, [+], [-] and [.]. *)
Fixpoint getScheme (s : string) : option (string * string) :=
  match s with
  | EmptyString => None
  | String c r =>
      if Ascii.eqb c ":" then Some ("", r)
      else if strings.Contains
                "abcdefghijklmnopqrstuvwxyzABCDEFGHIJKLMNOPQRSTUVWXYZ0123456789+-." c
           then '(scheme, rest) ← getScheme r; Some (String c scheme, rest)
           else None
  end.

(** [strings.TrimSuffix(s, ":")]. *)
Fixpoint trimColon (s : string) : string :=
  match s with
  | EmptyString => EmptyString
  | String c r => if (Ascii.eqb c ":" && String.eqb r "")%bool then "" else String c (trimColon r)
  end.

(** [removeEmptyPort] on the host, which ends the authority: the authority
    is what stands between the two slashes after the scheme and the next
    slash. *)
Definition removeEmptyPort (u : URL) : URL :=
  let '(scheme, rest) :=
    match getScheme (head u) with
    | Some (scheme, rest) => ((scheme ++ ":")%string, rest)
    | None => ("", head u)
    end in
  match rest with
  | String "/" (String "/" r) =>
      let '(authority, path, found) := strings.Cut r "/" in
      {| head := (scheme ++ "//" ++ trimColon authority
                  ++ (if found then "/" ++ path else ""))%string;
         ForceQuery := ForceQuery u; RawQuery := RawQuery u; Fragment := Fragment u |}
  | _ => u
  end.

#[global] Instance NetURL : url.NetURL :=
  {| url.URL := URL;
     url.Parse := Parse;
     url.RawQuery := RawQuery;
     url.set_RawQuery := fun u q =>
       {| head := head u; ForceQuery := ForceQuery u; RawQuery := q; Fragment := Fragment u |};
     url.String_ := String_;
     url.removeEmptyPort := removeEmptyPort |}.

End plain_url.

(** JSON texts are written with an apostrophe for each double quote. *)
Fixpoint quoted (s : string) : string :=
  match s with
  | EmptyString => EmptyString
  | String c r => String (if Ascii.eqb c "'" then "034"%char else c) (quoted r)
  end.

Module sample.

(** A few Go values to hand to the body helpers: an [int], a [bool], and a
    channel, which neither serializer supports. *)
Inductive GoValue :=
| GoInt (n : Z)
| GoBool (b : bool)
| GoChan.

Definition marshalJSON (v : GoValue) : string + string :=
  match v with
  | GoInt n => inl (itoa n)
  | GoBool b => inl (if b then "true" else "false")
  | GoChan => inr "json: unsupported type: chan int"
  end.

Definition marshalXML (v : GoValue) : string + string :=
  match v with
  | GoInt n => inl ("<int>" ++ itoa n ++ "</int>")%string
  | GoBool b => inl ("<bool>" ++ (if b then "true" else "false") ++ "</bool>")%string
  | GoChan => inr "xml: unsupported type: chan int"
  end.

(** The world in which the network answers by [server], responses are
    decoded by [json.Unmarshal], a context is given by whether it carries a
    debug collector, and every call takes 1.5ms. *)
Definition world (E : Type) `{json.Store E}
    (server : http.Request bool -> http.Response + string) : Collaborators E :=
  {| any := GoValue;
     Context := bool;
     json_Marshal := marshalJSON;
     xml_Marshal := marshalXML;
     json_Unmarshal := json.Unmarshal;
     client_Do := fun _ req => server req;
     time_Since := 1500000;
     GetDebugFromContext := fun c => default false c;
     GetDurationAsString := fun d => (itoa d ++ "ns")%string;
     constants_JSON := "json" |}.

(** What the network does to a request. *)
Abbreviation Server := (http.Request bool -> http.Response + string).

(** A server that answers every request with the same response. *)
Definition answers (resp : http.Response) : Server := fun _ => inl resp.

(** A host that cannot be reached. *)
Definition noSuchHost : string := "dial tcp: lookup api.example.com: no such host".
Definition unreachable : Server := fun _ => inr noSuchHost.

Definition itemsURL : string := "https://api.example.com/v1/items".

Definition jsonHeader : http.Header := {["Content-Type" := ["application/json"]]}.

(** 404 with a well-formed envelope. *)
Definition notFound : http.Response :=
  {| http.Status := "404 Not Found"; http.StatusCode := 404; http.RespHeader := jsonHeader;
     http.RespBody := io.Chunk (quoted "{'success':false,'data':null}") io.EOF |}.

(** 503 with a page of text. *)
Definition unavailable : http.Response :=
  {| http.Status := "503 Service Unavailable"; http.StatusCode := 503; http.RespHeader := ∅;
     http.RespBody := io.Chunk "<html>busy</html>" io.EOF |}.

(** 200 with an envelope whose payload is a string, where the caller expects
    an [int]. *)
Definition mistyped : http.Response :=
  {| http.Status := "200 OK"; http.StatusCode := 200; http.RespHeader := jsonHeader;
     http.RespBody := io.Chunk (quoted "{'success':true,'data':'x'}") io.EOF |}.

(** 200, and the connection breaks after the first bytes of the body. *)
Definition truncated : http.Response :=
  {| http.Status := "200 OK"; http.StatusCode := 200; http.RespHeader := jsonHeader;
     http.RespBody := io.Chunk (quoted "{'success':tr") (io.Fail "unexpected EOF") |}.

(** The resolved URL and the request of [getItems] below. *)
Definition itemsPage1 : string := "https://api.example.com/v1/items?page=1".

Definition itemsRequest : http.Request bool :=
  {| http.ctx := false;
     http.Method := "GET";
     http.URL := {| plain_url.head := itemsURL; plain_url.ForceQuery := false;
                    plain_url.RawQuery := "page=1"; plain_url.Fragment := "" |};
     http.Header_ := ∅;
     http.Body := None |}.

(** [NewGetHttpRequestBuilder(ctx, itemsURL).SetQueryParams({"page": "1"})]
    on a context without debug collector, for a payload of type [int]. *)
Definition getItems (server : Server) : HttpRequestBuilder (W := world Z server) :=
  SetQueryParams (Some {["page" := "1"]}) (NewGetHttpRequestBuilder (W := world Z server) (Some false) itemsURL).

(** The same with strict decoding switched off. *)
Definition getItemsLenient (server : Server) : HttpRequestBuilder (W := world Z server) :=
  SetThrowUnmarshalError false (getItems server).

(** A base URL that carries a query of its own, and two parameters. *)
Definition searchItems (server : Server) : HttpRequestBuilder (W := world Z server) :=
  SetQueryParams (Some {["page" := "1"; "q" := "a b&c"]})
    (NewGetHttpRequestBuilder (W := world Z server) (Some false)
       "https://api.example.com/v1/items?page=9&tag=x&tag=y#top").

(** What [url.Parse] makes of that base URL. *)
Definition searchBase : plain_url.URL :=
  {| plain_url.head := itemsURL; plain_url.ForceQuery := false;
     plain_url.RawQuery := "page=9&tag=x&tag=y"; plain_url.Fragment := "top" |}.

(** A base URL with a line feed in it, and no query parameters. *)
Definition badURL (server : Server) : HttpRequestBuilder (W := world Z server) :=
  NewGetHttpRequestBuilder (W := world Z server) (Some false)
    ("https://api.example.com/" ++ String "010" "").

(** A POST whose caller has already chosen a content type. *)
Definition taggedPost (server : Server) : HttpRequestBuilder (W := world Z server) :=
  SetRequestHeaders (Some {["Content-Type" := "text/plain"; "X-Request-Id" := "abc-123"]})
    (NewPostHttpRequestBuilder (W := world Z server) (Some false) itemsURL).

(** [NewPostHttpRequestBuilder(ctx, itemsURL).SetJSONBody(7)]. *)
Definition postSeven (server : Server) : HttpRequestBuilder (W := world Z server) :=
  fst (SetJSONBody (W := world Z server) (GoInt 7)
         (NewPostHttpRequestBuilder (W := world Z server) (Some false) itemsURL)).

(** The same request as [getItems], on a context that carries a debug
    collector. *)
Definition tracedItems (server : Server) : HttpRequestBuilder (W := world Z server) :=
  SetQueryParams (Some {["page" := "1"]})
    (NewGetHttpRequestBuilder (W := world Z server) (Some true) itemsURL).

Definition tracedRequest : http.Request bool :=
  {| http.ctx := true;
     http.Method := "GET";
     http.URL := {| plain_url.head := itemsURL; plain_url.ForceQuery := false;
                    plain_url.RawQuery := "page=1"; plain_url.Fragment := "" |};
     http.Header_ := ∅;
     http.Body := None |}.

(** [NewPostHttpRequestBuilder(ctx, itemsURL).SetJSONBody(7)
    .SetRequestHeaders({"Authorization": "Bearer token"})]: the body first,
    the headers after it. *)
Definition authorizedPost (server : Server) : HttpRequestBuilder (W := world Z server) :=
  SetRequestHeaders (Some {["Authorization" := "Bearer token"]}) (postSeven server).

(** Headers as a caller may spell them. *)
Definition spelledHeaders : gmap string string :=
  {["x-request-id" := "abc-123"; "ACCEPT" := "text/plain"]}.

Definition spelledGet (server : Server) : HttpRequestBuilder (W := world Z server) :=
  SetRequestHeaders (Some spelledHeaders)
    (NewGetHttpRequestBuilder (W := world Z server) (Some false) itemsURL).

(** [tracedItems] with strict decoding switched off. *)
Definition tracedLenient (server : Server) : HttpRequestBuilder (W := world Z server) :=
  SetThrowUnmarshalError false (tracedItems server).

(** Query parameters on the base URL with a line feed in it. *)
Definition badQuery (server : Server) : HttpRequestBuilder (W := world Z server) :=
  SetQueryParams (Some {["page" := "1"]}) (badURL server).

(** The requests of [postSeven], [authorizedPost] and [spelledGet]. *)
Definition postRequest (hdr : http.Header) : http.Request bool :=
  {| http.ctx := false;
     http.Method := "POST";
     http.URL := {| plain_url.head := itemsURL; plain_url.ForceQuery := false;
                    plain_url.RawQuery := ""; plain_url.Fragment := "" |};
     http.Header_ := hdr;
     http.Body := Some "7" |}.

Definition spelledRequest : http.Request bool :=
  {| http.ctx := false;
     http.Method := "GET";
     http.URL := {| plain_url.head := itemsURL; plain_url.ForceQuery := false;
                    plain_url.RawQuery := ""; plain_url.Fragment := "" |};
     http.Header_ := {["X-Request-Id" := ["abc-123"]; "Accept" := ["text/plain"]]};
     http.Body := None |}.

(** What [url.Parse] makes of [itemsURL]. *)
Definition itemsBase : plain_url.URL :=
  {| plain_url.head := itemsURL; plain_url.ForceQuery := false;
     plain_url.RawQuery := ""; plain_url.Fragment := "" |}.

(** A base URL whose query has a pair with a stray percent sign, and one
    parameter of another name. *)
Definition percentItems (server : Server) : HttpRequestBuilder (W := world Z server) :=
  SetQueryParams (Some {["page" := "2"]})
    (NewGetHttpRequestBuilder (W := world Z server) (Some false)
       "https://api.example.com/v1/items?q=100%&lang=en").

(** What [url.Parse] makes of that base URL. *)
Definition percentBase : plain_url.URL :=
  {| plain_url.head := itemsURL; plain_url.ForceQuery := false;
     plain_url.RawQuery := "q=100%&lang=en"; plain_url.Fragment := "" |}.




End sample.

(** ** The life of a builder *)

Section Lifecycle.
Context {E : Type} {ZE : Zero E} {NU : url.NetURL} {W : Collaborators E}.

(** The builders that the five constructors, the configuration calls and
    the body helpers produce: configured, not yet executed. *)
Inductive Configured : HttpRequestBuilder -> Prop :=
| Configured_post ctx rawURL : Configured (NewPostHttpRequestBuilder ctx rawURL)
| Configured_put ctx rawURL : Configured (NewPutHttpRequestBuilder ctx rawURL)
| Configured_patch ctx rawURL : Configured (NewPatchHttpRequestBuilder ctx rawURL)
| Configured_get ctx rawURL : Configured (NewGetHttpRequestBuilder ctx rawURL)
| Configured_delete ctx rawURL : Configured (NewDeleteHttpRequestBuilder ctx rawURL)
| Configured_headers h b : Configured b -> Configured (SetRequestHeaders h b)
| Configured_query q b : Configured b -> Configured (SetQueryParams q b)
| Configured_timeout t b : Configured b -> Configured (SetRequestTimeout t b)
| Configured_throw v b : Configured b -> Configured (SetThrowUnmarshalError v b)
| Configured_json v b : Configured b -> Configured (fst (SetJSONBody v b))
| Configured_xml v b : Configured b -> Configured (fst (SetXMLBody v b)).

(** The builders that the exported functions produce, executions included. *)
Inductive Built : HttpRequestBuilder -> Prop :=
| Built_configured b : Configured b -> Built b
| Built_headers h b : Built b -> Built (SetRequestHeaders h b)
| Built_query q b : Built b -> Built (SetQueryParams q b)
| Built_timeout t b : Built b -> Built (SetRequestTimeout t b)
| Built_throw v b : Built b -> Built (SetThrowUnmarshalError v b)
| Built_json v b : Built b -> Built (fst (SetJSONBody v b))
| Built_xml v b : Built b -> Built (fst (SetXMLBody v b))
| Built_Do b : Built b -> Built (fst (fst (Do b)))
| Built_GetResult b : Built b -> Built (fst (fst (GetResult b))).

(** [b1] has the request configuration of [b]: everything but the headers,
    the stored response, the measured time and the body reader, which a
    send reads from. *)
Definition sameConfiguration (b b1 : HttpRequestBuilder) : Prop :=
  url b1 = url b ∧ method b1 = method b ∧ queryParams b1 = queryParams b
  ∧ rawBodyBytes b1 = rawBodyBytes b ∧ timeout b1 = timeout b
  ∧ ctx b1 = ctx b ∧ throwUnmarshalError b1 = throwUnmarshalError b
  ∧ responseDataPresentation b1 = responseDataPresentation b.

Definition isClientDo (e : Event) : bool :=
  match e with ClientDo _ _ => true | _ => false end.

Definition isUnmarshal (e : Event) : bool :=
  match e with Unmarshal _ => true | _ => false end.

Definition isDebug (e : Event) : bool :=
  match e with
  | DebugCat _ | DebugAddStatement _ _ _ | DebugCalculateTotalTime => true
  | _ => false
  end.

(** The statement that [setDebugInfo] hands to the collector after an
    execution of [b] that resolved [finalURL] and received the status
    [code]. *)
Definition statementOf (b : HttpRequestBuilder) (finalURL : string) (code : Z)
  : HttpStatement any :=
  {| st_Time := GetDurationAsString time_Since;
     st_Status := code;
     st_Timeout := "";
     st_Method := method b;
     st_Url := finalURL;
     st_Error := "";
     st_Body := rawBodyBytes b;
     st_QueryParams := queryParams b;
     st_Headers := Some (default ∅ (headers b));
     st_Response := None;
     st_Duration := time_Since |}.

(** The statements handed to the debug collector by the calls [evs]. *)
Definition recorded (evs : list Event) : list (HttpStatement any) :=
  flat_map (fun e => match e with DebugAddStatement _ _ sts => sts | _ => [] end) evs.

(** The five method constants of the constructors. *)
Definition constructorMethods : list string :=
  [http.MethodPost; http.MethodPut; http.MethodPatch; http.MethodGet; http.MethodDelete].

End Lifecycle.

(** * Properties *)

(** ** Query values *)

Section QueryValues.

#[local] Instance string_le_total : Total url.string_le.
Proof. intros a b. apply String.leb_total. Qed.

Lemma sortedKeys_Sorted (v : url.Values) : Sorted url.string_le (url.sortedKeys v).
Proof. unfold url.sortedKeys. apply (Sorted_merge_sort url.string_le). Qed.

Lemma sortedKeys_NoDup (v : url.Values) : NoDup (url.sortedKeys v).
Proof.
  unfold url.sortedKeys. rewrite merge_sort_Permutation.
  apply NoDup_fst_map_to_list.
Qed.

Lemma elem_of_sortedKeys (v : url.Values) (k : string) :
  k ∈ url.sortedKeys v ↔ is_Some (v !! k).
Proof.
  unfold url.sortedKeys. rewrite merge_sort_Permutation.
  rewrite list_elem_of_fmap. split.
  - intros [[k' x] [-> Hin]]. apply elem_of_map_to_list in Hin. eauto.
  - intros [x Hx]. exists (k, x). split; [done|]. by apply elem_of_map_to_list.
Qed.

(** Setting distinct keys one after the other: each key that is set holds
    its one value, any other key keeps the values it had. *)
Lemma setAll_lookup (kvs : list (string * string)) (q : url.Values) (k : string) :
  NoDup kvs.*1 →
  setAll q kvs !! k =
    match (list_to_map kvs : gmap string string) !! k with
    | Some v => Some [v]
    | None => q !! k
    end.
Proof.
  revert q. induction kvs as [|[k0 v0] kvs IH]; intros q Hnd; simpl.
  - by rewrite lookup_empty.
  - apply NoDup_cons in Hnd as [Hk0 Hnd]. unfold setAll in *. simpl.
    rewrite (IH _ Hnd). unfold url.Set_.
    destruct (decide (k0 = k)) as [->|Hne].
    + rewrite lookup_insert_eq.
      rewrite (not_elem_of_list_to_map_1 kvs k Hk0). by rewrite lookup_insert_eq.
    + rewrite !(lookup_insert_ne _ k0 k) by done. done.
Qed.

(** The loop over the query parameters gives the same values in whatever
    order Go visits the map. *)
Lemma range_order_irrelevant (Q : gmap string string) (q : url.Values)
    (kvs : list (string * string)) :
  kvs ≡ₚ map_to_list Q → setAll q kvs = setAll q (map_to_list Q).
Proof.
  intros Hp. apply map_eq. intros k.
  assert (NoDup kvs.*1) as Hnd by (rewrite Hp; apply NoDup_fst_map_to_list).
  rewrite (setAll_lookup kvs q k Hnd).
  rewrite (setAll_lookup _ q k (NoDup_fst_map_to_list Q)).
  by rewrite (list_to_map_proper kvs (map_to_list Q) Hnd Hp).
Qed.

Lemma setAll_map_lookup (Q : gmap string string) (q : url.Values) (k : string) :
  setAll q (map_to_list Q) !! k =
    match Q !! k with
    | Some v => Some [v]
    | None => q !! k
    end.
Proof.
  rewrite (setAll_lookup _ q k (NoDup_fst_map_to_list Q)).
  by rewrite list_to_map_to_list.
Qed.

Lemma QueryEscape_safe (s : string) : http.all querySafe (url.QueryEscape s) = true.
Proof.
  induction s as [|c s IH]; [reflexivity|].
  destruct c as [[] [] [] [] [] [] [] []]; simpl; exact IH.
Qed.

End QueryValues.

(** ** The query codec read back *)

Section QueryRoundTrip.

Lemma QueryEscape_cons (c : ascii) (s : string) :
  url.QueryEscape (String c s) = (url.QueryEscape (String c "") ++ url.QueryEscape s)%string.
Proof. simpl. destruct (url.shouldEscape c), (Ascii.eqb c " "); reflexivity. Qed.

Lemma QueryUnescape_escaped_char (c : ascii) (r : string) :
  url.QueryUnescape (url.QueryEscape (String c "") ++ r) = String c <$> url.QueryUnescape r.
Proof. destruct c as [[] [] [] [] [] [] [] []]; reflexivity. Qed.

Lemma QueryUnescape_QueryEscape (s : string) :
  url.QueryUnescape (url.QueryEscape s) = Some s.
Proof.
  induction s as [|c s IH]; [reflexivity|].
  rewrite QueryEscape_cons, QueryUnescape_escaped_char, IH. reflexivity.
Qed.

Lemma Contains_app (s t : string) (c : ascii) :
  strings.Contains (s ++ t) c = strings.Contains s c || strings.Contains t c.
Proof. induction s as [|a s IH]; simpl; [done|]. rewrite IH. by rewrite orb_assoc. Qed.

Lemma all_not_Contains (p : ascii → bool) (s : string) (c : ascii) :
  http.all p s = true → p c = false → strings.Contains s c = false.
Proof.
  intros Hall Hc. induction s as [|a s IH]; [done|]. simpl in *.
  apply andb_prop in Hall as [Ha Hs]. rewrite (IH Hs), orb_false_r.
  destruct (Ascii.eqb_spec a c) as [->|]; [congruence|done].
Qed.

Lemma QueryEscape_no_separator (s : string) (c : ascii) :
  querySafe c = false → strings.Contains (url.QueryEscape s) c = false.
Proof. apply all_not_Contains, QueryEscape_safe. Qed.

Lemma Cut_at (a b : string) (sep : ascii) :
  strings.Contains a sep = false →
  strings.Cut (a ++ String sep b) sep = (a, b, true).
Proof.
  induction a as [|c a IH]; simpl; intros Hc.
  - by rewrite Ascii.eqb_refl.
  - apply orb_false_elim in Hc as [Hc Ha]. rewrite Hc, (IH Ha). done.
Qed.

Lemma pieces_at (a b : string) (sep : ascii) :
  strings.Contains a sep = false →
  strings.pieces (a ++ String sep b) sep = a :: strings.pieces b sep.
Proof.
  induction a as [|c a IH]; simpl; intros Hc.
  - by rewrite Ascii.eqb_refl.
  - apply orb_false_elim in Hc as [Hc Ha]. rewrite Hc, (IH Ha). done.
Qed.

Lemma pieces_whole (a : string) (sep : ascii) :
  strings.Contains a sep = false → strings.pieces a sep = [a].
Proof.
  induction a as [|c a IH]; simpl; intros Hc; [done|].
  apply orb_false_elim in Hc as [Hc Ha]. rewrite Hc, (IH Ha). done.
Qed.

Lemma pieces_Join (l : list string) :
  l ≠ [] →
  Forall (fun p => strings.Contains p "&" = false) l →
  strings.pieces (strings.Join l "&") "&" = l.
Proof.
  intros Hne Hl. unfold strings.Join. induction Hl as [|p l Hp Hl IH]; [done|].
  destruct l as [|p' l].
  - simpl. by apply pieces_whole.
  - change (String.concat "&" (p :: p' :: l))
      with (p ++ String "&" (String.concat "&" (p' :: l)))%string.
    rewrite (pieces_at _ _ _ Hp). f_equal. by apply IH.
Qed.

(** One written pair read back: its value is appended under its key. *)
Lemma parsePair_written (m : url.Values) (k x : string) :
  url.parsePair (m, None) (url.QueryEscape k ++ "=" ++ url.QueryEscape x)%string
  = (<[k := (default [] (m !! k) ++ [x])%list]> m, None).
Proof.
  unfold url.parsePair.
  change (url.QueryEscape k ++ "=" ++ url.QueryEscape x)%string
    with (url.QueryEscape k ++ String "=" (url.QueryEscape x))%string.
  rewrite Contains_app, (QueryEscape_no_separator k ";") by reflexivity.
  cbn [strings.Contains orb Ascii.eqb]. rewrite (QueryEscape_no_separator x ";") by reflexivity.
  cbn [orb].
  replace (String.eqb (url.QueryEscape k ++ String "=" (url.QueryEscape x)) "") with false
    by (by destruct (url.QueryEscape k)).
  rewrite (Cut_at _ _ "=") by (by apply QueryEscape_no_separator).
  by rewrite !QueryUnescape_QueryEscape.
Qed.

Lemma written_pair_no_amp (k x : string) :
  strings.Contains (url.QueryEscape k ++ "=" ++ url.QueryEscape x) "&" = false.
Proof.
  change (url.QueryEscape k ++ "=" ++ url.QueryEscape x)%string
    with (url.QueryEscape k ++ String "=" (url.QueryEscape x))%string.
  rewrite Contains_app, (QueryEscape_no_separator k "&") by reflexivity.
  cbn [strings.Contains orb Ascii.eqb]. by rewrite (QueryEscape_no_separator x "&").
Qed.

(** The pairs written for one key read back: its values are appended, in
    order, to those the key had. *)
Lemma parse_written_key (k : string) (xs : list string) (m : url.Values) :
  fold_left url.parsePair
    ((fun x => url.QueryEscape k ++ "=" ++ url.QueryEscape x)%string <$> xs) (m, None)
  = (match xs with
     | [] => m
     | _ => <[k := (default [] (m !! k) ++ xs)%list]> m
     end, None).
Proof.
  revert m. induction xs as [|x xs IH]; intros m; [done|].
  cbn [fmap list_fmap fold_left]. rewrite parsePair_written, IH.
  destruct xs as [|x' xs]; [done|].
  rewrite lookup_insert_eq, insert_insert_eq. simpl default.
  by rewrite <- app_assoc.
Qed.

Lemma parse_encodeKey (v : url.Values) (k : string) (m : url.Values) :
  fold_left url.parsePair (url.encodeKey v k) (m, None)
  = (match default [] (v !! k) with
     | [] => m
     | _ => <[k := (default [] (m !! k) ++ default [] (v !! k))%list]> m
     end, None).
Proof. unfold url.encodeKey. apply parse_written_key. Qed.

(** The pairs written for distinct keys read back. *)
Lemma parse_written_keys (v : url.Values) (ks : list string) (m : url.Values) :
  NoDup ks →
  snd (fold_left url.parsePair (mjoin (url.encodeKey v <$> ks)) (m, None)) = None
  ∧ ∀ k, fst (fold_left url.parsePair (mjoin (url.encodeKey v <$> ks)) (m, None)) !! k
         = if decide (k ∈ ks)
           then match v !! k with
                | Some (x :: xs) => Some (default [] (m !! k) ++ x :: xs)%list
                | _ => m !! k
                end
           else m !! k.
Proof.
  intros Hnd. revert m. induction Hnd as [|k0 ks Hk0 Hnd IH]; intros m.
  { split; [done|]. intros k. rewrite decide_False; [done|]. apply not_elem_of_nil. }
  cbn [fmap list_fmap mjoin list_join]. rewrite fold_left_app.
  rewrite parse_encodeKey.
  destruct (IH (match default [] (v !! k0) with
                | [] => m
                | _ => <[k0 := (default [] (m !! k0) ++ default [] (v !! k0))%list]> m
                end)) as [Herr Hlook].
  split; [exact Herr|]. intros k. rewrite Hlook.
  destruct (decide (k = k0)) as [->|Hne].
  - rewrite (decide_False (P := k0 ∈ ks)) by done.
    rewrite (decide_True (P := k0 ∈ k0 :: ks)) by apply list_elem_of_here.
    destruct (v !! k0) as [[|x xs]|]; simpl; [done| |done].
    by rewrite lookup_insert_eq.
  - assert (match default [] (v !! k0) with
            | [] => m
            | _ => <[k0 := (default [] (m !! k0) ++ default [] (v !! k0))%list]> m
            end !! k = m !! k) as Hm.
    { destruct (default [] (v !! k0)); [done|]. by rewrite lookup_insert_ne. }
    rewrite Hm.
    destruct (decide (k ∈ ks)) as [Hin|Hnin].
    + rewrite (decide_True (P := k ∈ k0 :: ks)) by (by apply list_elem_of_further). done.
    + rewrite (decide_False (P := k ∈ k0 :: ks)); [done|].
      intros [?|?]%elem_of_cons; done.
Qed.

(** What [Encode] writes, [ParseQuery] reads back without error, as long as
    no key holds an empty list of values (such a key is not written). *)
Lemma ParseQuery_Encode (v : url.Values) :
  (∀ k xs, v !! k = Some xs → xs ≠ []) →
  url.ParseQuery (url.Encode v) = (v, None).
Proof.
  intros Hne. unfold url.ParseQuery, url.Encode.
  assert (fold_left url.parsePair
            (strings.pieces (strings.Join (mjoin (url.encodeKey v <$> url.sortedKeys v)) "&") "&")
            (∅, None)
          = fold_left url.parsePair (mjoin (url.encodeKey v <$> url.sortedKeys v)) (∅, None))
    as ->.
  { destruct (mjoin (url.encodeKey v <$> url.sortedKeys v)) as [|p l] eqn:Hl; [reflexivity|].
    rewrite pieces_Join; [done|done|]. rewrite <- Hl.
    apply list.Forall_forall. intros p' Hin.
    apply list_elem_of_join in Hin as (ps & Hp' & Hps).
    apply list_elem_of_fmap in Hps as (k & -> & _).
    unfold url.encodeKey in Hp'. apply list_elem_of_fmap in Hp' as (x & -> & _).
    apply written_pair_no_amp. }
  destruct (parse_written_keys v (url.sortedKeys v) ∅ (sortedKeys_NoDup v)) as [Herr Hlook].
  destruct (fold_left _ _ _) as [m err]. cbn [fst snd] in *. subst err. f_equal.
  apply map_eq. intros k. rewrite Hlook.
  destruct (decide (k ∈ url.sortedKeys v)) as [Hin|Hnin].
  - destruct (v !! k) as [[|x xs]|] eqn:Hk; [by destruct (Hne k [] Hk)|done|].
    apply elem_of_sortedKeys in Hin as [? ?]. congruence.
  - rewrite lookup_empty. symmetry. apply eq_None_not_Some. intros Hs.
    by apply Hnin, elem_of_sortedKeys.
Qed.

(** The values that [ParseQuery] returns hold no empty list. *)
Lemma parsePair_nonempty (acc : url.Values * option string) (p : string) :
  (∀ k xs, fst acc !! k = Some xs → xs ≠ []) →
  ∀ k xs, fst (url.parsePair acc p) !! k = Some xs → xs ≠ [].
Proof.
  destruct acc as [m err]. unfold url.parsePair. intros Hm.
  destruct (strings.Contains p ";"); [exact Hm|].
  destruct (String.eqb p ""); [exact Hm|].
  destruct (strings.Cut p "=") as [[key value] found].
  destruct (url.QueryUnescape key) as [key'|]; [|exact Hm].
  destruct (url.QueryUnescape value) as [value'|]; [|exact Hm].
  cbn [fst]. intros k xs. destruct (decide (key' = k)) as [->|Hne].
  - rewrite lookup_insert_eq. intros [= <-]. by destruct (default [] (m !! k)).
  - rewrite lookup_insert_ne by done. apply Hm.
Qed.

Lemma ParseQuery_nonempty (query : string) (k : string) (xs : list string) :
  fst (url.ParseQuery query) !! k = Some xs → xs ≠ [].
Proof.
  unfold url.ParseQuery. revert k xs.
  generalize (strings.pieces query "&"). intros l.
  assert (∀ k xs, fst ((∅ : url.Values), (None : option string)) !! k = Some xs → xs ≠ [])
    as Hinit by (intros k xs; simpl; by rewrite lookup_empty).
  revert Hinit. generalize ((∅ : url.Values), (None : option string)).
  induction l as [|p l IH]; intros acc Hacc; [exact Hacc|].
  simpl. apply IH. by apply parsePair_nonempty.
Qed.

(** A pair that [parseQuery] cannot read adds nothing to the values: one
    that holds a semicolon, or whose key or value has a [%] that is not
    followed by two hexadecimal digits. *)
Lemma parsePair_skips (acc : url.Values * option string) (p : string) :
  strings.Contains p ";" = true
  ∨ url.QueryUnescape (fst (fst (strings.Cut p "="))) = None
  ∨ url.QueryUnescape (snd (fst (strings.Cut p "="))) = None →
  fst (url.parsePair acc p) = fst acc.
Proof.
  destruct acc as [m err]. unfold url.parsePair. intros Hbad.
  destruct (strings.Contains p ";"); [done|].
  destruct (String.eqb p ""); [done|].
  destruct (strings.Cut p "=") as [[key value] found]. cbn [fst snd] in Hbad.
  destruct (url.QueryUnescape key) as [key'|]; [|done].
  destruct (url.QueryUnescape value) as [value'|]; [|done].
  destruct Hbad as [?|[?|?]]; done.
Qed.

Lemma all_app (p : ascii → bool) (s t : string) :
  http.all p (s ++ t) = http.all p s && http.all p t.
Proof. induction s as [|c s IH]; simpl; [done|]. by rewrite IH, andb_assoc. Qed.

Lemma all_impl (p q : ascii → bool) (s : string) :
  (∀ c, p c = true → q c = true) → http.all p s = true → http.all q s = true.
Proof.
  intros Hpq. induction s as [|c s IH]; simpl; [done|].
  intros [Hc Hs]%andb_prop. by rewrite (Hpq c Hc), (IH Hs).
Qed.

Lemma all_Join (p : ascii → bool) (l : list string) (sep : string) :
  http.all p sep = true →
  Forall (fun x => http.all p x = true) l →
  http.all p (strings.Join l sep) = true.
Proof.
  intros Hsep Hl. unfold strings.Join. induction Hl as [|x l Hx Hl IH]; [done|].
  destruct l as [|y l]; [done|].
  change (String.concat sep (x :: y :: l))
    with (x ++ sep ++ String.concat sep (y :: l))%string.
  by rewrite !all_app, Hx, Hsep, IH.
Qed.

(** [Encode] writes nothing but letters, digits, the four marks, [+], [%XX],
    and the [=] and [&] that separate keys, values and pairs. *)
Lemma Encode_queryChar (v : url.Values) : http.all queryChar (url.Encode v) = true.
Proof.
  unfold url.Encode. apply all_Join; [reflexivity|].
  apply list.Forall_forall. intros p Hin.
  apply list_elem_of_join in Hin as (ps & Hp & Hps).
  apply list_elem_of_fmap in Hps as (k & -> & _).
  unfold url.encodeKey in Hp. apply list_elem_of_fmap in Hp as (x & -> & _).
  assert (∀ s, http.all queryChar (url.QueryEscape s) = true) as Hesc.
  { intros s. apply (all_impl querySafe); [|apply QueryEscape_safe].
    intros c Hc. unfold queryChar. by rewrite Hc. }
  change (url.QueryEscape k ++ "=" ++ url.QueryEscape x)%string
    with (url.QueryEscape k ++ String "=" (url.QueryEscape x))%string.
  rewrite all_app. cbn [http.all]. by rewrite !Hesc.
Qed.

End QueryRoundTrip.

(** ** URL composition *)

Section Compose.
Context {E : Type} {ZE : Zero E} {NU : url.NetURL} {W : Collaborators E}.

Lemma len_zero_iff (Q : gmap string string) : len (Some Q) = 0%nat ↔ Q = ∅.
Proof. simpl. apply map_size_empty_iff. Qed.

(** C3, as the code has it. Without query parameters the composed URL is
    the base URL as it stands.  With query parameters the base URL is
    parsed: a failure is returned as [InvalidURL]; otherwise the composed URL
    is the parsed URL with its raw query replaced by the encoding of the
    values [q].  These are the values that [ParseQuery] reads from the raw
    query of the base URL, pair by pair and skipping every pair that holds a
    semicolon or a malformed percent escape, with every configured key set to
    its one configured value and every other key that was read as it was
    read, whatever the order in which Go visits the parameters.  The encoding
    lists the keys of [q] in sorted order, each once, with key and values
    written by [QueryEscape]: it consists of letters, digits, the marks
    [-_.~], [+], [%XX], [=] and [&] only, and [ParseQuery] reads it back as
    [q] without error. *)
Theorem buildURL_merges_query (b : HttpRequestBuilder) :
  match queryParams b with
  | None => buildURL b = inl (url b)
  | Some Q =>
      if decide (Q = ∅) then buildURL b = inl (url b)
      else
        match url.Parse (url b) with
        | inr err => buildURL b = inr (InvalidURL err)
        | inl u =>
            ∃ q : url.Values,
              buildURL b = inl (url.String_ (url.set_RawQuery u (url.Encode q)))
              ∧ url.Query u
                = fst (fold_left url.parsePair (strings.pieces (url.RawQuery u) "&") (∅, None))
              ∧ (∀ acc p,
                   strings.Contains p ";" = true
                   ∨ url.QueryUnescape (fst (fst (strings.Cut p "="))) = None
                   ∨ url.QueryUnescape (snd (fst (strings.Cut p "="))) = None →
                   fst (url.parsePair acc p) = fst acc)
              ∧ (∀ kvs, kvs ≡ₚ map_to_list Q → setAll (url.Query u) kvs = q)
              ∧ (∀ k v, Q !! k = Some v → q !! k = Some [v])
              ∧ (∀ k, Q !! k = None → q !! k = url.Query u !! k)
              ∧ url.Encode q
                = strings.Join (mjoin (url.encodeKey q <$> url.sortedKeys q)) "&"
              ∧ Sorted url.string_le (url.sortedKeys q)
              ∧ NoDup (url.sortedKeys q)
              ∧ (∀ k, k ∈ url.sortedKeys q ↔ is_Some (q !! k))
              ∧ (∀ k, url.encodeKey q k
                      = (fun x => url.QueryEscape k ++ "=" ++ url.QueryEscape x)%string
                          <$> default [] (q !! k))
              ∧ http.all queryChar (url.Encode q) = true
              ∧ url.ParseQuery (url.Encode q) = (q, None)
        end
  end.
Proof.
  unfold buildURL. destruct (queryParams b) as [Q|] eqn:HQ; [|reflexivity].
  destruct (decide (Q = ∅)) as [->|Hne].
  { rewrite decide_True; [reflexivity|]. by apply len_zero_iff. }
  rewrite decide_False by (by rewrite len_zero_iff).
  destruct (url.Parse (url b)) as [u|err]; [|reflexivity].
  exists (setAll (url.Query u) (map_to_list Q)). simpl.
  split; [reflexivity|].
  split; [reflexivity|].
  split; [apply parsePair_skips|].
  split; [intros kvs Hp; by apply range_order_irrelevant|].
  split; [intros k v Hk; by rewrite setAll_map_lookup, Hk|].
  split; [intros k Hk; by rewrite setAll_map_lookup, Hk|].
  split; [reflexivity|].
  split; [apply sortedKeys_Sorted|].
  split; [apply sortedKeys_NoDup|].
  split; [apply elem_of_sortedKeys|].
  split; [reflexivity|].
  split; [apply Encode_queryChar|].
  apply ParseQuery_Encode. intros k xs. rewrite setAll_map_lookup.
  destruct (Q !! k) as [v|]; [by intros [= <-]|]. apply ParseQuery_nonempty.
Qed.

(** C10. With no query parameters, [nil] or empty, the composed URL is the
    base URL whatever [url.Parse] makes of it, so composing never fails with
    [InvalidURL]; when the base URL does not parse, it is
    [http.NewRequestWithContext] that refuses it: [do] returns its error
    before anything is sent and stores no response. *)
Theorem empty_query_skips_parsing (b : HttpRequestBuilder) :
  len (queryParams b) = 0%nat →
  buildURL b = inl (url b)
  ∧ buildURL (ensureHeaders b) = inl (url b)
  ∧ ∀ err, url.Parse (url b) = inr err →
      ∃ e, http.NewRequestWithContext (ctx b) (method b) (url b) (body b) = inr e
           ∧ do b = (ensureHeaders b, Some (RequestConstructionError e), [])
           ∧ response (ensureHeaders b) = response b
           ∧ (http.validMethod (if String.eqb (method b) "" then "GET" else method b) = true →
              ctx b ≠ None → e = http.ParseError err).
Proof.
  intros Hlen.
  assert (buildURL b = inl (url b)) as Hb.
  { unfold buildURL. by rewrite decide_True. }
  assert (buildURL (ensureHeaders b) = inl (url b)) as Hb'.
  { unfold buildURL, ensureHeaders. destruct (headers b); simpl; by rewrite decide_True. }
  split; [done|]. split; [done|]. intros err Hp.
  assert (∃ e, http.NewRequestWithContext (ctx b) (method b) (url b) (body b) = inr e
               ∧ (http.validMethod (if String.eqb (method b) "" then "GET" else method b) = true →
                  ctx b ≠ None → e = http.ParseError err)) as [e [He Hwhy]].
  { unfold http.NewRequestWithContext.
    destruct (http.validMethod _); simpl; [|eexists; split; [done|]; intros; done].
    destruct (ctx b); [|eexists; split; [done|]; intros; done].
    rewrite Hp. eexists; split; [done|]. done. }
  exists e. split; [done|]. split; [|split; [|done]].
  - unfold do. rewrite Hb'.
    replace (ctx (ensureHeaders b)) with (ctx b) by (unfold ensureHeaders; by destruct (headers b)).
    replace (method (ensureHeaders b)) with (method b)
      by (unfold ensureHeaders; by destruct (headers b)).
    replace (body (ensureHeaders b)) with (body b)
      by (unfold ensureHeaders; by destruct (headers b)).
    by rewrite He.
  - unfold ensureHeaders; by destruct (headers b).
Qed.

End Compose.

(** ** Execution *)

Section Execution.
Context {E : Type} {ZE : Zero E} {NU : url.NetURL} {W : Collaborators E}.

(** [ensureHeaders] touches the headers only. *)
Lemma ensureHeaders_frame (b : HttpRequestBuilder) :
  url (ensureHeaders b) = url b ∧ method (ensureHeaders b) = method b
  ∧ queryParams (ensureHeaders b) = queryParams b ∧ body (ensureHeaders b) = body b
  ∧ timeout (ensureHeaders b) = timeout b ∧ response (ensureHeaders b) = response b
  ∧ ctx (ensureHeaders b) = ctx b
  ∧ throwUnmarshalError (ensureHeaders b) = throwUnmarshalError b
  ∧ headers (ensureHeaders b) = Some (default ∅ (headers b)).
Proof. unfold ensureHeaders. destruct b as [? ? [h|] ? ? ? ? ? ? ? ? ?]; simpl; done. Qed.

(** [do] once the request is built: the fresh response record is stored,
    and filled in when the client returns a response. *)
Lemma do_outbound (b : HttpRequestBuilder) finalURL req :
  outbound b = Some (finalURL, req) →
  do b =
    match client_Do (timeout b) req with
    | inr err =>
        (with_response (Some (newResponse finalURL (method b))) (ensureHeaders b),
         Some (NetworkError err), [ClientDo (timeout b) req])
    | inl resp =>
        (with_response (Some (received finalURL (method b) resp)) (ensureHeaders b),
         None, [ClientDo (timeout b) req])
    end.
Proof.
  unfold outbound, do.
  destruct (ensureHeaders_frame b) as (_ & Hm & _ & _ & Ht & _ & _ & _ & _).
  destruct (buildURL (ensureHeaders b)) as [u|]; [|done].
  destruct (http.NewRequestWithContext _ _ _ _) as [req0|]; [|done].
  intros [= <- <-]. rewrite Hm, Ht.
  destruct (client_Do _ _) as [resp|err]; [|done].
  unfold received. destruct (io.ReadAll (http.RespBody resp)) as [data rerr]. done.
Qed.

(** [do] when the URL does not compose or the request cannot be built:
    nothing is sent and the stored response is not touched. *)
Lemma do_not_outbound (b : HttpRequestBuilder) :
  outbound b = None →
  ∃ err, do b = (ensureHeaders b, Some err, [])
         ∧ ((∃ e, err = InvalidURL e) ∨ (∃ e, err = RequestConstructionError e)).
Proof.
  unfold outbound, do.
  destruct (buildURL (ensureHeaders b)) as [u|err] eqn:Hu.
  - destruct (http.NewRequestWithContext _ _ _ _) as [req0|e]; [done|].
    intros _. eexists; split; [done|]. right. by eexists.
  - intros _. exists err. split; [done|]. left.
    unfold buildURL in Hu. case_decide; [done|].
    destruct (url.Parse _); [done|]. injection Hu as <-. by eexists.
Qed.

(** [Do] is [do] with the elapsed time recorded. *)
Lemma Do_do (b : HttpRequestBuilder) :
  Do b = (with_execTime time_Since (fst (fst (do b))), snd (fst (do b)), snd (do b)).
Proof. unfold Do. by destruct (do b) as [[b1 err] evs]. Qed.

(** The request that goes out carries the body of the builder. *)
Lemma outbound_Body (b : HttpRequestBuilder) finalURL req :
  outbound b = Some (finalURL, req) → http.Body req = body b.
Proof.
  unfold outbound.
  destruct (ensureHeaders_frame b) as (_ & _ & _ & Hbody & _).
  destruct (buildURL (ensureHeaders b)) as [u|]; [|done].
  destruct (http.NewRequestWithContext _ _ _ _) as [req0|] eqn:Hnew; [|done].
  intros [= _ <-].
  assert (http.Body req0 = body b) as <-.
  { unfold http.NewRequestWithContext in Hnew.
    destruct (negb _); [done|]. destruct (ctx _); [|done].
    destruct (url.Parse u); [|done]. injection Hnew as <-. by rewrite <- Hbody. }
  clear Hnew. generalize (range (headers (ensureHeaders b))). intros l. revert req0.
  induction l as [|kv l IH]; intros req0; [done|]. simpl. by rewrite IH.
Qed.

(** [GetResult] once the client has returned a response. *)
Lemma GetResult_received (b : HttpRequestBuilder) finalURL req hresp :
  outbound b = Some (finalURL, req) →
  client_Do (timeout b) req = inl hresp →
  GetResult b =
    let stored := received finalURL (method b) hresp in
    let b1 := with_execTime time_Since (with_response (Some stored) (ensureHeaders b)) in
    let evs := [ClientDo (timeout b) req; Unmarshal (Body stored)] in
    let '(r, uerr) := json_Unmarshal (Body stored) zero in
    match uerr, throwUnmarshalError b with
    | Some err, true => (b1, Ret (None, Some (UnmarshalError err)), evs)
    | _, _ =>
        let resp := with_Result r stored in
        let b2 := with_response (Some resp) b1 in
        (b2,
         if 500 <=? http.StatusCode hresp
         then Ret (None, Some (ServerError
                                 (serverErrorf (method b) finalURL (http.StatusCode hresp))))
         else Ret (Some resp, None),
         (evs ++ setDebugInfo b2 resp)%list)
    end.
Proof.
  intros Hout Hdo. unfold GetResult. rewrite Do_do, (do_outbound b _ _ Hout), Hdo.
  destruct (ensureHeaders_frame b) as (_ & Hm & _ & _ & _ & _ & _ & Hthrow & _).
  cbn [fst snd response with_execTime with_response throwUnmarshalError method].
  rewrite Hthrow, Hm.
  destruct (json_Unmarshal _ _) as [r uerr].
  cbn [app].
  destruct uerr as [e|], (throwUnmarshalError b); try reflexivity.
  all: cbn [StatusCode Url with_Result received]; by destruct (500 <=? _).
Qed.

(** [GetResult] always returns: the response it reads after a successful
    [Do] has been stored by [do]. *)
Lemma GetResult_returns (b : HttpRequestBuilder) :
  ∃ res, snd (fst (GetResult b)) = Ret res.
Proof.
  destruct (outbound b) as [[finalURL req]|] eqn:Hout.
  - destruct (client_Do (timeout b) req) as [hresp|err] eqn:Hdo.
    + rewrite (GetResult_received b _ _ _ Hout Hdo). cbv zeta.
      destruct (json_Unmarshal _ _) as [r [e|]]; destruct (throwUnmarshalError b);
        cbn [fst snd]; try destruct (500 <=? _); eauto.
    + unfold GetResult. rewrite Do_do, (do_outbound b _ _ Hout), Hdo. simpl. eauto.
  - destruct (do_not_outbound b Hout) as (err & Hdo & _).
    unfold GetResult. rewrite Do_do, Hdo. simpl. eauto.
Qed.

Lemma GetResult_outcome (b : HttpRequestBuilder) finalURL req hresp r uerr :
  outbound b = Some (finalURL, req) →
  client_Do (timeout b) req = inl hresp →
  json_Unmarshal (fst (io.ReadAll (http.RespBody hresp))) zero = (r, uerr) →
  snd (fst (GetResult b)) =
    match uerr, throwUnmarshalError b with
    | Some err, true => Ret (None, Some (UnmarshalError err))
    | _, _ => classified b finalURL hresp r
    end.
Proof.
  intros Hout Hdo Hjson.
  rewrite (GetResult_received b _ _ _ Hout Hdo). cbv zeta.
  cbn [Body received]. rewrite Hjson.
  by destruct uerr, (throwUnmarshalError b).
Qed.

(** C1. When the client returns a response and its body decodes, or strict
    decoding is off: a status code of 500 or more makes [GetResult] return no
    result and the error "http METHOD URL -> CODE"; a status code from 400 to
    499, or below 400, makes it return the result record with the status
    line, status code and body received, the resolved URL, the method and the
    decoded envelope, and no error. *)
Theorem GetResult_classifies_status (b : HttpRequestBuilder) finalURL req hresp r uerr :
  outbound b = Some (finalURL, req) →
  client_Do (timeout b) req = inl hresp →
  json_Unmarshal (fst (io.ReadAll (http.RespBody hresp))) zero = (r, uerr) →
  uerr = None ∨ throwUnmarshalError b = false →
  let code := http.StatusCode hresp in
  let result := {| Status := http.Status hresp;
                   Body := fst (io.ReadAll (http.RespBody hresp));
                   StatusCode := code; Url := finalURL; Method := method b;
                   Headers := None; Result := r; ErrorsMap := None |} in
  (500 ≤ code →
   snd (fst (GetResult b))
   = Ret (None, Some (ServerError
                        ("http " ++ method b ++ " " ++ finalURL ++ " -> " ++ itoa code))))
  ∧ (400 ≤ code < 500 → snd (fst (GetResult b)) = Ret (Some result, None))
  ∧ (code < 400 → snd (fst (GetResult b)) = Ret (Some result, None)).
Proof.
  intros Hout Hdo Hjson Hok code result.
  rewrite (GetResult_outcome b _ _ _ _ _ Hout Hdo Hjson). fold code.
  replace (match uerr, throwUnmarshalError b with
           | Some err, true => Ret (None, Some (UnmarshalError err))
           | _, _ => classified b finalURL hresp r
           end) with (classified b finalURL hresp r)
    by (destruct Hok as [-> | ->]; [done|]; by destruct uerr).
  unfold classified. fold code.
  split; [|split]; intros Hc.
  - rewrite (proj2 (Z.leb_le 500 code)) by lia. reflexivity.
  - rewrite (proj2 (Z.leb_gt 500 code)) by lia. reflexivity.
  - rewrite (proj2 (Z.leb_gt 500 code)) by lia. reflexivity.
Qed.

(** C2, as the code has it. When the body fails to decode: with strict
    decoding on, [GetResult] returns no result and the decoder's error,
    whatever the status code; with strict decoding off, the decode step
    raises no error and the envelope of the result is what the decoder left
    in the zero envelope [r] it was given, so that the call ends as the
    status code decides. *)
Theorem decode_failure_by_strictness (b : HttpRequestBuilder) finalURL req hresp r err :
  outbound b = Some (finalURL, req) →
  client_Do (timeout b) req = inl hresp →
  json_Unmarshal (fst (io.ReadAll (http.RespBody hresp))) zero = (r, Some err) →
  let code := http.StatusCode hresp in
  let result := {| Status := http.Status hresp;
                   Body := fst (io.ReadAll (http.RespBody hresp));
                   StatusCode := code; Url := finalURL; Method := method b;
                   Headers := None; Result := r; ErrorsMap := None |} in
  (throwUnmarshalError b = true →
   snd (fst (GetResult b)) = Ret (None, Some (UnmarshalError err)))
  ∧ (throwUnmarshalError b = false →
     snd (fst (GetResult b))
     = if 500 <=? code
       then Ret (None, Some (ServerError (serverErrorf (method b) finalURL code)))
       else Ret (Some result, None)).
Proof.
  intros Hout Hdo Hjson code result.
  rewrite (GetResult_outcome b _ _ _ _ _ Hout Hdo Hjson).
  split; intros ->; reflexivity.
Qed.

(** C5. When the client fails, [Do] returns its error as [NetworkError] and
    has stored a response record that holds the resolved URL and the method
    and nothing else; [GetResult] returns no result and the same error, and
    the only call made is the one to the client: the decoder is not called. *)
Theorem transport_failure_aborts (b : HttpRequestBuilder) finalURL req err :
  outbound b = Some (finalURL, req) →
  client_Do (timeout b) req = inr err →
  let stored := {| Status := ""; Body := ""; StatusCode := 0; Url := finalURL;
                   Method := method b; Headers := None; Result := zero;
                   ErrorsMap := None |} in
  let b1 := with_execTime time_Since (with_response (Some stored) (ensureHeaders b)) in
  Do b = (b1, Some (NetworkError err), [ClientDo (timeout b) req])
  ∧ GetResult b = (b1, Ret (None, Some (NetworkError err)), [ClientDo (timeout b) req]).
Proof.
  intros Hout Hdo stored b1.
  assert (Do b = (b1, Some (NetworkError err), [ClientDo (timeout b) req])) as HDo.
  { rewrite Do_do, (do_outbound b _ _ Hout), Hdo. reflexivity. }
  split; [exact HDo|]. unfold GetResult. rewrite HDo. reflexivity.
Qed.

(** C6, as the code has it. When the client returns a response, the response
    record stored by [Do] holds the status line, the status code and the
    bytes read from the body; its headers mapping and its error-detail
    mapping are both [nil], whatever headers the response had; and so does
    any result that [GetResult] returns. *)
Theorem result_headers_are_nil (b : HttpRequestBuilder) finalURL req hresp :
  outbound b = Some (finalURL, req) →
  client_Do (timeout b) req = inl hresp →
  let carries (resp : HttpResponse E any) :=
    Status resp = http.Status hresp
    ∧ StatusCode resp = http.StatusCode hresp
    ∧ Body resp = fst (io.ReadAll (http.RespBody hresp))
    ∧ Headers resp = None
    ∧ ErrorsMap resp = None in
  (∃ stored, response (fst (fst (Do b))) = Some stored ∧ carries stored)
  ∧ (∀ resp rerr, snd (fst (GetResult b)) = Ret (Some resp, rerr) → carries resp).
Proof.
  intros Hout Hdo carries. split.
  - rewrite Do_do, (do_outbound b _ _ Hout), Hdo. cbn [fst snd response with_execTime
      with_response]. eexists. split; [reflexivity|]. by repeat split.
  - intros resp rerr.
    destruct (json_Unmarshal (fst (io.ReadAll (http.RespBody hresp))) zero)
      as [r uerr] eqn:Hjson.
    rewrite (GetResult_outcome b _ _ _ _ _ Hout Hdo Hjson). unfold classified.
    destruct uerr as [e|], (throwUnmarshalError b), (500 <=? http.StatusCode hresp);
      intros [= <- <-] || intros [=]; by repeat split.
Qed.

(** C8, as the code has it. When reading the body of the response fails,
    the read error is not returned by anything: [Do] returns no error and
    has stored the status line and the status code received and, as body,
    the bytes read before the failure; [GetResult] goes on with those bytes
    as it does with a body read to its end, so that it returns the decoder's
    error when they do not decode and decoding is strict, and otherwise what
    the status code decides, the stored body being those bytes. *)
Theorem body_read_failure_is_swallowed (b : HttpRequestBuilder) finalURL req hresp data rerr
    r uerr :
  outbound b = Some (finalURL, req) →
  client_Do (timeout b) req = inl hresp →
  io.ReadAll (http.RespBody hresp) = (data, Some rerr) →
  json_Unmarshal data zero = (r, uerr) →
  let code := http.StatusCode hresp in
  let stored := {| Status := http.Status hresp; Body := data; StatusCode := code;
                   Url := finalURL; Method := method b; Headers := None; Result := zero;
                   ErrorsMap := None |} in
  let result := {| Status := http.Status hresp; Body := data; StatusCode := code;
                   Url := finalURL; Method := method b; Headers := None; Result := r;
                   ErrorsMap := None |} in
  snd (fst (Do b)) = None
  ∧ response (fst (fst (Do b))) = Some stored
  ∧ snd (Do b) = [ClientDo (timeout b) req]
  ∧ snd (fst (GetResult b))
    = match uerr, throwUnmarshalError b with
      | Some err, true => Ret (None, Some (UnmarshalError err))
      | _, _ =>
          if 500 <=? code
          then Ret (None, Some (ServerError (serverErrorf (method b) finalURL code)))
          else Ret (Some result, None)
      end.
Proof.
  intros Hout Hdo Hread Hjson code stored result.
  assert (received finalURL (method b) hresp = stored) as Hstored.
  { unfold received. by rewrite Hread. }
  split; [|split; [|split]].
  - by rewrite Do_do, (do_outbound b _ _ Hout), Hdo.
  - rewrite Do_do, (do_outbound b _ _ Hout), Hdo. cbn [fst response with_execTime
      with_response]. by rewrite Hstored.
  - by rewrite Do_do, (do_outbound b _ _ Hout), Hdo.
  - rewrite (GetResult_outcome b finalURL req hresp r uerr Hout Hdo)
      by (by rewrite Hread).
    unfold classified. rewrite Hstored. reflexivity.
Qed.

(** Whatever [do] stores as the response has the zero envelope and no
    error-detail mapping. *)
Lemma do_response (b : HttpRequestBuilder) :
  response (fst (fst (do b))) = response b
  ∨ ∃ r, response (fst (fst (do b))) = Some r ∧ Result r = zero ∧ ErrorsMap r = None.
Proof.
  destruct (outbound b) as [[finalURL req]|] eqn:Hout.
  - right. rewrite (do_outbound b _ _ Hout).
    destruct (client_Do _ _); cbn [fst snd response with_response]; eauto.
  - left. destruct (do_not_outbound b Hout) as (err & -> & _). simpl.
    apply ensureHeaders_frame.
Qed.

(** The calls and the errors of [do]: the client at most, and no error of
    the decoding or of the classification. *)
Lemma do_calls (b : HttpRequestBuilder) :
  (∀ data, Unmarshal data ∉ snd (do b))
  ∧ (∀ msg, snd (fst (do b)) ≠ Some (UnmarshalError msg))
  ∧ (∀ msg, snd (fst (do b)) ≠ Some (ServerError msg)).
Proof.
  destruct (outbound b) as [[finalURL req]|] eqn:Hout.
  - rewrite (do_outbound b _ _ Hout).
    destruct (client_Do _ _); cbn [fst snd]; repeat split; try done;
      intros data Hin; apply list_elem_of_singleton in Hin; done.
  - destruct (do_not_outbound b Hout) as (err & -> & Herr). cbn [fst snd].
    repeat split; [intros data Hin; by apply not_elem_of_nil in Hin|..];
      intros msg [= ->]; destruct Herr as [[e He]|[e He]]; done.
Qed.

Lemma SetBody_response k v (b : HttpRequestBuilder) :
  response (fst (SetBody k v b)) = response b.
Proof.
  destruct k; unfold SetBody, SetJSONBody, SetXMLBody.
  - destruct (json_Marshal v); [|done]. cbn [fst setHeader response with_headers].
    by destruct (ensureHeaders_frame (with_body s b)) as (_ & _ & _ & _ & _ & -> & _).
  - destruct (xml_Marshal v); [|done]. cbn [fst setHeader response with_headers].
    by destruct (ensureHeaders_frame (with_body s b)) as (_ & _ & _ & _ & _ & -> & _).
Qed.

(** As long as [GetResult] is not called, the stored response has the zero
    envelope and no error-detail mapping. *)
Lemma DoOnly_response (b : HttpRequestBuilder) :
  DoOnly b → ∀ r, response b = Some r → Result r = zero ∧ ErrorsMap r = None.
Proof.
  induction 1 as [| | | | |k v b Hb IH|b Hb IH]; try done.
  - rewrite SetBody_response. exact IH.
  - rewrite Do_do. cbn [fst response with_execTime].
    destruct (do_response b) as [-> | (r' & -> & Hr)]; [exact IH|].
    by intros r [= <-].
Qed.

(** C9. On a builder that is configured and executed by [Do] alone, the
    stored response, whenever there is one and whatever status code and body
    were received, has the zero envelope and no error-detail mapping, before
    and after a further [Do]; and [Do] neither calls the decoder nor returns
    an error of the decoding or of the status classification. *)
Theorem Do_alone_leaves_envelope_zero (b : HttpRequestBuilder) :
  DoOnly b →
  (∀ r, response b = Some r → Result r = zero ∧ ErrorsMap r = None)
  ∧ (∀ r, response (fst (fst (Do b))) = Some r → Result r = zero ∧ ErrorsMap r = None)
  ∧ (∀ data, Unmarshal data ∉ snd (Do b))
  ∧ (∀ msg, snd (fst (Do b)) ≠ Some (UnmarshalError msg))
  ∧ (∀ msg, snd (fst (Do b)) ≠ Some (ServerError msg)).
Proof.
  intros Hb. split; [by apply DoOnly_response|].
  split; [apply DoOnly_response; by constructor|].
  rewrite Do_do. cbn [fst snd]. apply do_calls.
Qed.

End Execution.

(** ** Body helpers *)

Section BodyHelpers.
Context {E : Type} {ZE : Zero E} {NU : url.NetURL} {W : Collaborators E}.

(** A body helper whose serialization succeeds. *)
Lemma SetBody_ok k v data (b : HttpRequestBuilder) :
  Marshal k v = inl data →
  fst (SetBody k v b)
  = setHeader httpheader.ContentType (mediaType k) (ensureHeaders (with_body data b)).
Proof.
  destruct k; unfold Marshal, SetBody, SetJSONBody, SetXMLBody; intros ->; reflexivity.
Qed.

(** C4. After a body helper whose serialization succeeds, from any builder
    state: the headers hold the media type of the helper under
    [Content-Type], whatever was stored there before, and every other header
    as it was; the body is the serialized value.  Hence, of two calls in
    sequence, the later one decides both the body and the content type. *)
Theorem body_helpers_force_ContentType k v data (b : HttpRequestBuilder) :
  Marshal k v = inl data →
  let b' := fst (SetBody k v b) in
  contentType b' = Some (mediaType k)
  ∧ (∃ h', headers b' = Some h'
           ∧ ∀ key, key ≠ httpheader.ContentType → h' !! key = default ∅ (headers b) !! key)
  ∧ rawBodyBytes b' = data
  ∧ body b' = Some data
  ∧ ∀ k0 v0,
      let b2 := fst (SetBody k v (fst (SetBody k0 v0 b))) in
      contentType b2 = Some (mediaType k) ∧ rawBodyBytes b2 = data ∧ body b2 = Some data.
Proof.
  intros Hok.
  assert (∀ b0 : HttpRequestBuilder,
            contentType (fst (SetBody k v b0)) = Some (mediaType k)
            ∧ (∃ h', headers (fst (SetBody k v b0)) = Some h'
                     ∧ ∀ key, key ≠ httpheader.ContentType →
                              h' !! key = default ∅ (headers b0) !! key)
            ∧ rawBodyBytes (fst (SetBody k v b0)) = data
            ∧ body (fst (SetBody k v b0)) = Some data) as Hone.
  { intros b0. rewrite (SetBody_ok k v data b0 Hok).
    destruct (ensureHeaders_frame (with_body data b0)) as (_ & _ & _ & _ & _ & _ & _ & _ & Hh).
    unfold contentType, setHeader. cbn [headers with_headers rawBodyBytes body].
    rewrite Hh. cbn [default mbind option_bind headers with_body].
    split; [apply lookup_insert_eq|].
    split; [eexists; split; [reflexivity|]; intros key Hkey; by rewrite lookup_insert_ne|].
    unfold ensureHeaders. by destruct (headers (with_body data b0)). }
  intros b'. destruct (Hone b) as (Hct & Hh & Hraw & Hbody).
  repeat split; try done.
  all: destruct (Hone (fst (SetBody k0 v0 b))) as (? & ? & ? & ?); done.
Qed.

(** C7, as the code has it. When the serialization fails, the body helper
    logs the error and returns the builder exactly as it was: the body is
    not set (it stays unset if it was unset, and the request then goes out
    without a body; it stays what an earlier call made it otherwise), the
    headers are not touched, and no error is returned. *)
Theorem body_helper_failure_changes_nothing k v err (b : HttpRequestBuilder) :
  Marshal k v = inr err →
  SetBody k v b = (b, [LogError err])
  ∧ body (fst (SetBody k v b)) = body b
  ∧ rawBodyBytes (fst (SetBody k v b)) = rawBodyBytes b
  ∧ headers (fst (SetBody k v b)) = headers b
  ∧ (body b = None →
     ∀ finalURL req, outbound (fst (SetBody k v b)) = Some (finalURL, req) →
                     http.Body req = None).
Proof.
  intros Hfail.
  assert (SetBody k v b = (b, [LogError err])) as ->.
  { destruct k; unfold Marshal, SetBody, SetJSONBody, SetXMLBody in *; by rewrite Hfail. }
  repeat split. intros Hnone finalURL req Hout.
  rewrite <- Hnone. by apply (outbound_Body b finalURL req).
Qed.

End BodyHelpers.

(** ** The decoder and the reader *)

(** [json.Unmarshal] writes into its target only when the body is a JSON
    object: a body that is not JSON at all, or a JSON value of another kind,
    leaves the target as it was. *)
Lemma Unmarshal_untouched {E} `{json.Store E} (data : string) (r : Response E) :
  (∀ members, json.parse data ≠ Some (json.Object members)) →
  fst (json.Unmarshal data r) = r.
Proof.
  intros Hno. unfold json.Unmarshal.
  destruct (json.parse data) as [[| | | | |members]|]; try reflexivity.
  by destruct (Hno members).
Qed.

Lemma Unmarshal_syntax_error {E} `{json.Store E} (data : string) (r : Response E) :
  json.parse data = None → ∃ err, json.Unmarshal data r = (r, Some err).
Proof. intros Hp. unfold json.Unmarshal. rewrite Hp. eauto. Qed.

(** [io.ReadAll] returns every byte that was read before the failure. *)
Lemma ReadAll_Chunk (data : string) (rest : io.Reader) :
  io.ReadAll (io.Chunk data rest)
  = ((data ++ fst (io.ReadAll rest))%string, snd (io.ReadAll rest)).
Proof. simpl. by destruct (io.ReadAll rest). Qed.

Lemma ReadAll_Fail (err : string) : io.ReadAll (io.Fail err) = ("", Some err).
Proof. reflexivity. Qed.


(** ** The query codec at work *)

Example QueryEscape_ex : url.QueryEscape "a b&c=d/~" = "a+b%26c%3Dd%2F~".
Proof. reflexivity. Qed.

Example QueryUnescape_ex : url.QueryUnescape "a+b%26c%3dd%2F~" = Some "a b&c=d/~".
Proof. reflexivity. Qed.

Example ParseQuery_ex :
  url.ParseQuery "b=2&a=1&b=x%20y&&c;d=1&e=%zz" =
  ({["a" := ["1"]; "b" := ["2"; "x y"]]}, Some "invalid semicolon separator in query").
Proof. vm_compute. reflexivity. Qed.

Example Encode_ex :
  url.Encode {["b" := ["2"; "x y"]; "a" := ["1"]; "B" := [""]]} = "B=&a=1&b=2&b=x+y".
Proof. vm_compute. reflexivity. Qed.

Example Unmarshal_ex :
  json.Unmarshal (quoted "{'success':true,'data':{'id':1}}") (zero : Response Z)
  = ({| Success := true; Data := 0 |},
     Some json.UnmarshalTypeError)
  ∧ json.Unmarshal (quoted " { 'data' : 41 , 'Success' : true , 'more' : [1, 2.5e-3] } ")
      (zero : Response Z)
    = ({| Success := true; Data := 41 |}, None)
  ∧ fst (json.Unmarshal "<html>busy</html>" (zero : Response Z)) = zero.
Proof. vm_compute. repeat split. Qed.

(** * Worked executions *)

Section Worked.
Import sample.

(** C1 at work: a 404 with a well-formed envelope is returned as a result;
    a 503 is returned as an error. *)
Lemma GetResult_classifies_status_witness :
  snd (fst (GetResult (getItems (answers notFound))))
  = Ret (Some {| Status := "404 Not Found";
                 Body := quoted "{'success':false,'data':null}";
                 StatusCode := 404;
                 Url := "https://api.example.com/v1/items?page=1";
                 Method := "GET";
                 Headers := None;
                 Result := {| Success := false; Data := 0 |};
                 ErrorsMap := None |}, None)
  ∧ snd (fst (GetResult (getItemsLenient (answers unavailable))))
    = Ret (None, Some (ServerError "http GET https://api.example.com/v1/items?page=1 -> 503")).
Proof.
  split.
  - refine (eq_trans
              (proj1 (proj2 (GetResult_classifies_status (getItems (answers notFound))
                               itemsPage1 itemsRequest notFound
                               {| Success := false; Data := 0 |} None _ _ _ _)) _) _);
      [vm_compute; reflexivity ..
      | left; reflexivity
      | vm_compute; split; [intros [=]|reflexivity]
      | vm_compute; reflexivity].
  - refine (eq_trans
              (proj1 (GetResult_classifies_status (getItemsLenient (answers unavailable))
                        itemsPage1 itemsRequest unavailable zero
                        (Some json.SyntaxError)
                        _ _ _ _) _) _);
      [vm_compute; reflexivity ..
      | right; reflexivity
      | vm_compute; intros [=]
      | vm_compute; reflexivity].
Defined.

(** C2 fails as stated: the body below is a JSON object whose [data] does
    not fit an [int]; the decoder reports it, strict decoding is off, and the
    result comes back with [Success] set by the decoder, not with the zero
    envelope. *)
Lemma lenient_decode_failure_fills_envelope :
  let b := getItemsLenient (answers mistyped) in
  throwUnmarshalError b = false
  ∧ fst (json.Unmarshal (quoted "{'success':true,'data':'x'}") (zero : Response Z))
    = {| Success := true; Data := 0 |}
  ∧ is_Some (snd (json.Unmarshal (quoted "{'success':true,'data':'x'}") (zero : Response Z)))
  ∧ ∃ resp, snd (fst (GetResult b)) = Ret (Some resp, None)
            ∧ Body resp = quoted "{'success':true,'data':'x'}"
            ∧ Result resp = {| Success := true; Data := 0 |}
            ∧ Result resp ≠ zero.
Proof.
  split; [reflexivity|]. split; [vm_compute; reflexivity|].
  split; [vm_compute; eexists; reflexivity|].
  eexists. split; [vm_compute; reflexivity|].
  split; [reflexivity|]. split; [reflexivity|]. intros [=].
Defined.

(** C2 at work, on the same response: strict decoding returns the decoder's
    error, lenient decoding the envelope as the decoder left it. *)
Lemma decode_failure_by_strictness_witness :
  (∃ err, snd (fst (GetResult (getItems (answers mistyped))))
          = Ret (None, Some (UnmarshalError err)))
  ∧ snd (fst (GetResult (getItemsLenient (answers mistyped))))
    = Ret (Some {| Status := "200 OK";
                   Body := quoted "{'success':true,'data':'x'}";
                   StatusCode := 200;
                   Url := "https://api.example.com/v1/items?page=1";
                   Method := "GET";
                   Headers := None;
                   Result := {| Success := true; Data := 0 |};
                   ErrorsMap := None |}, None).
Proof.
  split.
  - exists json.UnmarshalTypeError.
    refine (proj1 (decode_failure_by_strictness (getItems (answers mistyped))
                     itemsPage1 itemsRequest mistyped {| Success := true; Data := 0 |}
                     json.UnmarshalTypeError _ _ _) _);
      vm_compute; reflexivity.
  - refine (eq_trans
              (proj2 (decode_failure_by_strictness (getItemsLenient (answers mistyped))
                        itemsPage1 itemsRequest mistyped {| Success := true; Data := 0 |}
                        json.UnmarshalTypeError _ _ _) _)
              _);
      vm_compute; reflexivity.
Defined.

(** C5 at work: the host cannot be reached. *)
Lemma transport_failure_aborts_witness :
  snd (fst (GetResult (getItems unreachable))) = Ret (None, Some (NetworkError noSuchHost))
  ∧ snd (GetResult (getItems unreachable)) = [ClientDo (W := world Z unreachable) 30000000000 itemsRequest]
  ∧ response (fst (fst (GetResult (getItems unreachable))))
    = Some {| Status := ""; Body := ""; StatusCode := 0;
              Url := "https://api.example.com/v1/items?page=1"; Method := "GET";
              Headers := None; Result := zero; ErrorsMap := None |}.
Proof.
  pose proof (proj2 (transport_failure_aborts (getItems unreachable) itemsPage1 itemsRequest
                       noSuchHost ltac:(vm_compute; reflexivity)
                       ltac:(vm_compute; reflexivity))) as ->.
  repeat split.
Defined.

(** C6 fails as stated: the response carries a [Content-Type] header, and the
    result that comes back has no headers mapping at all. *)
Lemma response_headers_not_carried :
  http.RespHeader notFound !! "Content-Type" = Some ["application/json"]
  ∧ ∃ resp, snd (fst (GetResult (getItems (answers notFound)))) = Ret (Some resp, None)
            ∧ Status resp = "404 Not Found"
            ∧ Headers resp = None.
Proof.
  split; [vm_compute; reflexivity|].
  eexists. split; [vm_compute; reflexivity|]. split; reflexivity.
Defined.

(** C6 at work on the same execution. *)
Lemma result_headers_are_nil_witness :
  ∃ stored, response (fst (fst (Do (getItems (answers notFound))))) = Some stored
            ∧ Status stored = "404 Not Found"
            ∧ StatusCode stored = 404
            ∧ Body stored = quoted "{'success':false,'data':null}"
            ∧ Headers stored = None
            ∧ ErrorsMap stored = None.
Proof.
  destruct (proj1 (result_headers_are_nil (getItems (answers notFound)) itemsPage1 itemsRequest
                     notFound ltac:(vm_compute; reflexivity) ltac:(vm_compute; reflexivity)))
    as (stored & Hs & H1 & H2 & H3 & H4 & H5).
  exists stored. repeat split; assumption.
Defined.

(** C8 fails as stated: the read fails after thirteen bytes, [Do] returns no
    error, and the stored body is those thirteen bytes, not the empty body;
    [GetResult], which decodes strictly here, then returns the error of the
    decoder on them. *)
Lemma failed_read_keeps_bytes_read :
  io.ReadAll (http.RespBody truncated) = (quoted "{'success':tr", Some "unexpected EOF")
  ∧ snd (fst (Do (getItems (answers truncated)))) = None
  ∧ (∃ stored, response (fst (fst (Do (getItems (answers truncated))))) = Some stored
               ∧ Body stored = quoted "{'success':tr"
               ∧ Body stored ≠ ""
               ∧ StatusCode stored = 200)
  ∧ ∃ err, snd (fst (GetResult (getItems (answers truncated))))
           = Ret (None, Some (UnmarshalError err)).
Proof.
  split; [reflexivity|]. split; [vm_compute; reflexivity|]. split.
  - eexists. split; [vm_compute; reflexivity|].
    split; [reflexivity|]. split; [intros [=]|reflexivity].
  - eexists. vm_compute. reflexivity.
Defined.

(** C8 at work on the same execution: [Do] returns no error; the thirteen
    bytes are not a JSON text, so that [GetResult] returns the decoder's
    error under strict decoding and a result with those bytes and the zero
    envelope otherwise; the error of the read is returned by neither. *)
Lemma body_read_failure_is_swallowed_witness :
  snd (fst (Do (getItems (answers truncated)))) = None
  ∧ response (fst (fst (Do (getItems (answers truncated)))))
    = Some {| Status := "200 OK"; Body := quoted "{'success':tr"; StatusCode := 200;
              Url := "https://api.example.com/v1/items?page=1"; Method := "GET";
              Headers := None; Result := zero; ErrorsMap := None |}
  ∧ (∃ err, snd (fst (GetResult (getItems (answers truncated))))
            = Ret (None, Some (UnmarshalError err)))
  ∧ snd (fst (GetResult (getItemsLenient (answers truncated))))
    = Ret (Some {| Status := "200 OK"; Body := quoted "{'success':tr"; StatusCode := 200;
                   Url := "https://api.example.com/v1/items?page=1"; Method := "GET";
                   Headers := None; Result := zero; ErrorsMap := None |}, None).
Proof.
  pose proof (body_read_failure_is_swallowed (getItems (answers truncated)) itemsPage1
                itemsRequest truncated (quoted "{'success':tr") "unexpected EOF"
                zero (Some json.SyntaxError)
                ltac:(vm_compute; reflexivity) ltac:(vm_compute; reflexivity)
                ltac:(vm_compute; reflexivity) ltac:(vm_compute; reflexivity))
    as (HDo & Hresp & _ & Hstrict).
  pose proof (body_read_failure_is_swallowed (getItemsLenient (answers truncated)) itemsPage1
                itemsRequest truncated (quoted "{'success':tr") "unexpected EOF"
                zero (Some json.SyntaxError)
                ltac:(vm_compute; reflexivity) ltac:(vm_compute; reflexivity)
                ltac:(vm_compute; reflexivity) ltac:(vm_compute; reflexivity))
    as (_ & _ & _ & Hlenient).
  split; [exact HDo|]. split; [exact Hresp|].
  split; [exists json.SyntaxError; exact Hstrict|exact Hlenient].
Defined.

(** C3 fails as stated: the query of the base URL has the key [q], whose
    value ends in a stray percent sign; [page] is the only parameter
    configured, and the composed URL has lost [q]. *)
Lemma malformed_pair_is_dropped :
  url.Parse (url (percentItems unreachable)) = inl percentBase
  ∧ url.RawQuery percentBase = "q=100%&lang=en"
  ∧ queryParams (percentItems unreachable)
    = Some ({["page" := "2"]} : gmap string string)
  ∧ url.Query percentBase = {["lang" := ["en"]]}
  ∧ buildURL (percentItems unreachable)
    = inl "https://api.example.com/v1/items?lang=en&page=2".
Proof.
  split; [vm_compute; reflexivity|]. split; [reflexivity|].
  split; [vm_compute; reflexivity|]. split; vm_compute; reflexivity.
Defined.

(** C3 at work: the base URL has [page=9] and two values of [tag]; the
    parameters set [page] and add [q], whose value is written escaped and
    read back as it was. *)
Lemma buildURL_merges_query_witness :
  ∃ q : url.Values,
    buildURL (searchItems unreachable)
    = inl (url.String_ (url.set_RawQuery searchBase (url.Encode q)))
    ∧ q !! "page" = Some ["1"]
    ∧ q !! "q" = Some ["a b&c"]
    ∧ q !! "tag" = Some ["x"; "y"]
    ∧ Sorted url.string_le (url.sortedKeys q)
    ∧ http.all queryChar (url.Encode q) = true
    ∧ fst (url.ParseQuery (url.Encode q)) !! "q" = Some ["a b&c"].
Proof.
  pose proof (buildURL_merges_query (searchItems unreachable)) as H.
  assert (queryParams (searchItems unreachable)
          = Some ({["page" := "1"; "q" := "a b&c"]} : gmap string string)) as HQ
    by (clear; vm_compute; reflexivity).
  rewrite HQ in H.
  destruct (decide (({["page" := "1"; "q" := "a b&c"]} : gmap string string) = ∅))
    as [He|_].
  { exfalso. revert He. clear. vm_compute. intros [=]. }
  assert (url.Parse (url (searchItems unreachable)) = inl searchBase) as HP
    by (clear; vm_compute; reflexivity).
  rewrite HP in H.
  destruct H as (q & Hb & _ & _ & _ & Hset & Hkeep & _ & Hsorted & _ & _ & _ & Hchars & Hback).
  assert (q !! "q" = Some ["a b&c"]) as Hq by (apply Hset; clear; vm_compute; reflexivity).
  exists q. split; [exact Hb|].
  split; [apply Hset; clear; vm_compute; reflexivity|].
  split; [exact Hq|].
  split; [|split; [exact Hsorted|split; [exact Hchars|by rewrite Hback]]].
  rewrite Hkeep by (clear; vm_compute; reflexivity). clear. vm_compute. reflexivity.
Defined.

Example buildURL_searchItems :
  buildURL (searchItems unreachable)
  = inl "https://api.example.com/v1/items?page=1&q=a+b%26c&tag=x&tag=y#top".
Proof. vm_compute. reflexivity. Qed.

(** C4 at work: the caller's [text/plain] is overwritten by the XML helper,
    and the JSON helper called after it decides body and content type. *)
Lemma body_helpers_force_ContentType_witness :
  let b1 := fst (SetXMLBody (W := world Z unreachable) (GoInt 7) (taggedPost unreachable)) in
  let b2 := fst (SetJSONBody (W := world Z unreachable) (GoBool true) b1) in
  contentType (taggedPost unreachable) = Some "text/plain"
  ∧ contentType b1 = Some "application/xml"
  ∧ body b1 = Some "<int>7</int>"
  ∧ contentType b2 = Some "application/json"
  ∧ body b2 = Some "true"
  ∧ rawBodyBytes b2 = "true".
Proof.
  intros b1 b2.
  pose proof (body_helpers_force_ContentType (W := world Z unreachable) XMLBody (GoInt 7)
                "<int>7</int>" (taggedPost unreachable) ltac:(vm_compute; reflexivity))
    as (Hct1 & _ & _ & Hbody1 & _).
  pose proof (body_helpers_force_ContentType (W := world Z unreachable) JSONBody (GoBool true)
                "true" (taggedPost unreachable) ltac:(vm_compute; reflexivity))
    as (_ & _ & _ & _ & Hlater).
  destruct (Hlater XMLBody (GoInt 7)) as (Hct2 & Hraw2 & Hbody2).
  split; [clear; vm_compute; reflexivity|].
  split; [exact Hct1|]. split; [exact Hbody1|].
  split; [exact Hct2|]. split; [exact Hbody2|exact Hraw2].
Defined.

(** C7 fails as stated: after [SetJSONBody(7)], a call of [SetJSONBody] on a
    channel fails to serialize; the body is still the earlier one and the
    request goes out with it. *)
Lemma failed_helper_keeps_earlier_body :
  let b := fst (SetJSONBody (W := world Z unreachable) GoChan (postSeven unreachable)) in
  json_Marshal (Collaborators := world Z unreachable) GoChan
  = inr "json: unsupported type: chan int"
  ∧ body b = Some "7"
  ∧ body b ≠ None
  ∧ ∃ req, outbound b = Some (itemsURL, req) ∧ http.Body req = Some "7".
Proof.
  split; [reflexivity|]. split; [vm_compute; reflexivity|].
  split; [vm_compute; intros [=]|].
  eexists. split; [vm_compute; reflexivity|reflexivity].
Defined.

(** C7 at work on the same call, and on a builder without a body. *)
Lemma body_helper_failure_changes_nothing_witness :
  SetJSONBody (W := world Z unreachable) GoChan (postSeven unreachable)
  = (postSeven unreachable, [LogError "json: unsupported type: chan int"])
  ∧ SetXMLBody (W := world Z unreachable) GoChan (getItems unreachable)
    = (getItems unreachable, [LogError "xml: unsupported type: chan int"]).
Proof.
  split.
  - exact (proj1 (body_helper_failure_changes_nothing (W := world Z unreachable) JSONBody GoChan
                    "json: unsupported type: chan int" (postSeven unreachable) eq_refl)).
  - exact (proj1 (body_helper_failure_changes_nothing (W := world Z unreachable) XMLBody GoChan
                    "xml: unsupported type: chan int" (getItems unreachable) eq_refl)).
Defined.

(** C9 at work: [Do] against a service that answers 503 with a page of text
    returns no error and stores the zero envelope. *)
Lemma Do_alone_leaves_envelope_zero_witness :
  snd (fst (Do (getItems (answers unavailable)))) = None
  ∧ StatusCode <$> response (fst (fst (Do (getItems (answers unavailable))))) = Some 503
  ∧ ∀ r, response (fst (fst (Do (getItems (answers unavailable))))) = Some r →
         Result r = zero ∧ ErrorsMap r = None.
Proof.
  split; [vm_compute; reflexivity|]. split; [vm_compute; reflexivity|].
  refine (proj1 (proj2 (Do_alone_leaves_envelope_zero (getItems (answers unavailable)) _))).
  unfold getItems. apply DoOnly_query, DoOnly_new.
Defined.

(** C10 at work: the line feed in the base URL goes unnoticed when the URL
    is composed and makes the construction of the request fail. *)
Lemma empty_query_skips_parsing_witness :
  buildURL (badURL unreachable) = inl (url (badURL unreachable))
  ∧ do (badURL unreachable)
    = (ensureHeaders (badURL unreachable),
       Some (RequestConstructionError
               (http.ParseError "net/url: invalid control character in URL")),
       []).
Proof.
  destruct (empty_query_skips_parsing (badURL unreachable) eq_refl) as (Hb & _ & Hdo).
  split; [exact Hb|].
  destruct (Hdo "net/url: invalid control character in URL" ltac:(vm_compute; reflexivity))
    as (e & _ & Hdo' & _ & He).
  rewrite <- (He ltac:(vm_compute; reflexivity) ltac:(vm_compute; intros [=])).
  exact Hdo'.
Defined.

End Worked.

(** * Further properties of the builder *)

Section Further.
Context {E : Type} {ZE : Zero E} {NU : url.NetURL} {W : Collaborators E}.

(** ** What an execution changes *)

Lemma do_state (b : HttpRequestBuilder) :
  ∃ r, fst (fst (do b)) = with_response r (ensureHeaders b).
Proof.
  destruct (outbound b) as [[finalURL req]|] eqn:Hout.
  - rewrite (do_outbound b _ _ Hout). destruct (client_Do _ _); eauto.
  - destruct (do_not_outbound b Hout) as (err & -> & _).
    exists (response (ensureHeaders b)). by destruct (ensureHeaders b).
Qed.

Lemma GetResult_state (b : HttpRequestBuilder) :
  ∃ r, fst (fst (GetResult b)) = with_response r (fst (fst (Do b))).
Proof.
  unfold GetResult. destruct (Do b) as [[b1 err] evs]. cbn [fst].
  destruct b1 as [u m h q bd raw t resp p c et thr].
  destruct err as [err|]; [by exists resp|]. cbn [response throwUnmarshalError].
  destruct resp as [resp|]; [|by exists None].
  destruct (json_Unmarshal _ _) as [r [e|]]; destruct thr;
    try destruct (500 <=? _); cbn [fst]; by eexists.
Qed.

Lemma sameConfiguration_executed (b : HttpRequestBuilder) r t :
  sameConfiguration b (with_execTime t (with_response r (ensureHeaders b)))
  ∧ headers (with_execTime t (with_response r (ensureHeaders b)))
    = Some (default ∅ (headers b))
  ∧ execTime (with_execTime t (with_response r (ensureHeaders b))) = t.
Proof.
  unfold sameConfiguration, ensureHeaders. by destruct b as [? ? [h|] ? ? ? ? ? ? ? ? ?].
Qed.

Lemma buildURL_sameConfiguration (b b1 : HttpRequestBuilder) :
  sameConfiguration b b1 → buildURL b1 = buildURL b.
Proof. intros (Hu & _ & Hq & _). unfold buildURL. by rewrite Hu, Hq. Qed.

(** X1. [Do] and [GetResult] leave the request configuration of the builder
    as it was: URL, method, query parameters, the bytes of the serialized
    body, timeout, context and strictness.  Of the other fields, the headers
    keep their entries (a [nil] mapping becomes the empty one) and the
    measured time is overwritten; so composing the URL after an execution
    gives what it gave before.  The body reader, which the send reads from,
    is not part of the statement. *)
Theorem execution_keeps_configuration (b : HttpRequestBuilder) :
  let after b1 :=
    sameConfiguration b b1
    ∧ headers b1 = Some (default ∅ (headers b))
    ∧ execTime b1 = time_Since
    ∧ buildURL b1 = buildURL b in
  after (fst (fst (Do b))) ∧ after (fst (fst (GetResult b))).
Proof.
  intros after.
  assert (∀ r, after (with_execTime time_Since (with_response r (ensureHeaders b)))) as Hafter.
  { intros r. destruct (sameConfiguration_executed b r time_Since) as (Hs & Hh & Ht).
    repeat split; try done; try apply Hs. by apply buildURL_sameConfiguration. }
  assert (∃ r, fst (fst (Do b)) = with_execTime time_Since (with_response r (ensureHeaders b)))
    as [r HDo].
  { rewrite Do_do. cbn [fst]. destruct (do_state b) as [r ->]. eauto. }
  split; [rewrite HDo; apply Hafter|].
  destruct (GetResult_state b) as [r' ->]. rewrite HDo.
  replace (with_response r' (with_execTime time_Since (with_response r (ensureHeaders b))))
    with (with_execTime time_Since (with_response r' (ensureHeaders b)))
    by reflexivity.
  apply Hafter.
Qed.

(** ** What [GetResult] returns and what it leaves behind *)

(** X2. [GetResult] returns either a result or an error, never both and
    never neither.  A result is the response stored in the builder and has a
    status below 500.  With the status error the stored response is the
    complete one (status 500 or more, named in the message); with the
    decoder's error, which needs strict decoding, it has the zero envelope;
    with the client's error it is the bare record of URL and method; with
    an error of the URL or of the request it is what it was before the
    call. *)
Theorem GetResult_outcome_and_state (b : HttpRequestBuilder) :
  match snd (fst (GetResult b)) with
  | Ret (Some r, None) =>
      response (fst (fst (GetResult b))) = Some r ∧ StatusCode r < 500
  | Ret (None, Some (ServerError msg)) =>
      ∃ r, response (fst (fst (GetResult b))) = Some r
           ∧ 500 ≤ StatusCode r
           ∧ msg = serverErrorf (method b) (Url r) (StatusCode r)
  | Ret (None, Some (UnmarshalError _)) =>
      throwUnmarshalError b = true
      ∧ ∃ r, response (fst (fst (GetResult b))) = Some r ∧ Result r = zero
  | Ret (None, Some (NetworkError _)) =>
      ∃ finalURL,
        response (fst (fst (GetResult b))) = Some (newResponse finalURL (method b))
  | Ret (None, Some (InvalidURL _)) | Ret (None, Some (RequestConstructionError _)) =>
      response (fst (fst (GetResult b))) = response b
  | _ => False
  end.
Proof.
  destruct (outbound b) as [[finalURL req]|] eqn:Hout.
  - destruct (client_Do (timeout b) req) as [hresp|err] eqn:Hdo.
    + rewrite (GetResult_received b _ _ _ Hout Hdo). cbv zeta.
      destruct (json_Unmarshal _ _) as [r uerr].
      destruct uerr as [e|], (throwUnmarshalError b) eqn:Hthrow;
        try (destruct (500 <=? http.StatusCode hresp) eqn:Hcode;
             [apply Z.leb_le in Hcode|apply Z.leb_gt in Hcode]);
        cbn [fst snd response with_response with_execTime]; eauto.
    + unfold GetResult. rewrite Do_do, (do_outbound b _ _ Hout), Hdo.
      cbn [fst snd response with_response with_execTime]. eauto.
  - destruct (do_not_outbound b Hout) as (err & Hdo & Herr).
    unfold GetResult. rewrite Do_do, Hdo.
    cbn [fst snd response with_response with_execTime].
    destruct (ensureHeaders_frame b) as (_ & _ & _ & _ & _ & Hresp & _).
    destruct Herr as [[e ->]|[e ->]]; exact Hresp.
Qed.

(** ** The calls of an execution *)

Lemma setDebugInfo_executed (b : HttpRequestBuilder) r r' finalURL code
    (resp : HttpResponse E any) :
  Url resp = finalURL → StatusCode resp = code →
  setDebugInfo (with_response r' (with_execTime time_Since (with_response r (ensureHeaders b))))
    resp
  = if GetDebugFromContext (ctx b)
    then [DebugCat "http";
          DebugAddStatement "http" time_Since [statementOf b finalURL code];
          DebugCalculateTotalTime]
    else [].
Proof.
  intros <- <-. unfold setDebugInfo, statementOf, ensureHeaders.
  destruct b as [? ? [h|] ? ? ? ? ? ? ? ? ?]; cbn; by destruct (GetDebugFromContext _).
Qed.

(** X3. When the client returns a response and the decode step is passed,
    [GetResult] has made exactly these calls, in this order: the client, the
    decoder on the bytes read, and, if the context carries a debug
    collector, the three calls that record one statement under "http",
    whatever the status code.  The statement holds the measured time, the
    status code, the method, the resolved URL, the headers (never [nil]),
    the query parameters and the serialized body; its timeout, error and
    response fields are left empty. *)
Theorem debug_statement_recorded (b : HttpRequestBuilder) finalURL req hresp r uerr :
  outbound b = Some (finalURL, req) →
  client_Do (timeout b) req = inl hresp →
  json_Unmarshal (fst (io.ReadAll (http.RespBody hresp))) zero = (r, uerr) →
  uerr = None ∨ throwUnmarshalError b = false →
  snd (GetResult b)
  = ([ClientDo (timeout b) req; Unmarshal (fst (io.ReadAll (http.RespBody hresp)))]
     ++ (if GetDebugFromContext (ctx b)
         then [DebugCat "http";
               DebugAddStatement "http" time_Since
                 [statementOf b finalURL (http.StatusCode hresp)];
               DebugCalculateTotalTime]
         else []))%list.
Proof.
  intros Hout Hdo Hjson Hok.
  rewrite (GetResult_received b _ _ _ Hout Hdo). cbv zeta.
  cbn [Body received]. rewrite Hjson.
  rewrite (setDebugInfo_executed b _ _ finalURL (http.StatusCode hresp)) by reflexivity.
  destruct Hok as [-> | ->]; [done|]. by destruct uerr.
Qed.

(** X4. Whatever happens, [GetResult] calls the client at most once and the
    decoder at most once; the decoder is called only after [Do] has returned
    without error, on the body that [Do] stored; and the debug collector is
    written to only if the context carries one and the call ends with a
    result or with the status error, never when it ends with another
    error. *)
Theorem GetResult_calls (b : HttpRequestBuilder) :
  (length (List.filter isClientDo (snd (GetResult b))) ≤ 1)%nat
  ∧ (length (List.filter isUnmarshal (snd (GetResult b))) ≤ 1)%nat
  ∧ (∀ data, Unmarshal data ∈ snd (GetResult b) →
       snd (fst (Do b)) = None
       ∧ ∃ r, response (fst (fst (Do b))) = Some r ∧ Body r = data)
  ∧ (∀ e, e ∈ snd (GetResult b) → isDebug e = true →
       GetDebugFromContext (ctx b) = true
       ∧ ∀ err, snd (fst (GetResult b)) = Ret (None, Some err) →
                ∃ msg, err = ServerError msg).
Proof.
  destruct (outbound b) as [[finalURL req]|] eqn:Hout.
  - destruct (client_Do (timeout b) req) as [hresp|err] eqn:Hdo.
    + rewrite (GetResult_received b _ _ _ Hout Hdo). cbv zeta.
      rewrite Do_do, (do_outbound b _ _ Hout), Hdo.
      destruct (json_Unmarshal _ _) as [r uerr].
      rewrite (setDebugInfo_executed b _ _ finalURL (http.StatusCode hresp)) by reflexivity.
      destruct uerr as [e|], (throwUnmarshalError b), (GetDebugFromContext (ctx b));
        cbn [fst snd app List.filter isClientDo isUnmarshal length response with_response
             with_execTime Body received].
      all: split; [lia|]. all: split; [lia|].
      all: split;
        [intros data Hin;
         repeat (apply elem_of_cons in Hin as [Hin|Hin]; [try discriminate Hin|]);
         try (by apply elem_of_nil in Hin);
         injection Hin as ->; split; [done|]; by eexists
        |].
      all: intros ev Hin Hdbg;
        repeat (apply elem_of_cons in Hin as [->|Hin]; [try discriminate Hdbg|]);
        try (by apply elem_of_nil in Hin).
      all: split; [done|]; intros err; unfold classified;
        destruct (500 <=? http.StatusCode hresp); intros [= <-] || intros [=]; by eexists.
    + unfold GetResult. rewrite Do_do, (do_outbound b _ _ Hout), Hdo.
      cbn [fst snd List.filter isClientDo isUnmarshal length].
      split; [lia|]. split; [lia|].
      split; intros ? Hin; apply list_elem_of_singleton in Hin; [discriminate Hin|].
      subst. intros [=].
  - destruct (do_not_outbound b Hout) as (err & Hdo & _).
    unfold GetResult. rewrite Do_do, Hdo. cbn [fst snd List.filter length].
    split; [lia|]. split; [lia|].
    split; intros ? Hin; by apply elem_of_nil in Hin.
Qed.

End Further.

Section Requests.
Context {E : Type} {ZE : Zero E} {NU : url.NetURL} {W : Collaborators E}.

(** ** The request that goes out *)

Lemma setHeader_fold_from (l : list (string * string)) (req : http.Request Context) K vs :
  http.Header_ (fold_left http.setHeader l req) !! K = Some vs →
  http.Header_ req !! K = Some vs
  ∨ ∃ k v, (k, v) ∈ l ∧ http.CanonicalMIMEHeaderKey k = K ∧ vs = [v].
Proof.
  revert req. induction l as [|[k0 v0] l IH]; intros req; [by left|].
  cbn [fold_left]. intros Hl. destruct (IH _ Hl) as [Hreq|(k & v & Hin & HK & Hvs)].
  - unfold http.setHeader, http.Header_Set in Hreq. cbn [http.Header_ fst snd] in Hreq.
    destruct (decide (http.CanonicalMIMEHeaderKey k0 = K)) as [HK|HK].
    + subst K. rewrite lookup_insert_eq in Hreq. injection Hreq as <-.
      right. exists k0, v0. split; [apply list_elem_of_here|done].
    + rewrite lookup_insert_ne in Hreq by done. by left.
  - right. exists k, v. split; [by apply list_elem_of_further|done].
Qed.

Lemma setHeader_fold_keeps (l : list (string * string)) (req : http.Request Context) K v :
  http.Header_ req !! K = Some [v] →
  (∀ k' v', (k', v') ∈ l → http.CanonicalMIMEHeaderKey k' = K → v' = v) →
  http.Header_ (fold_left http.setHeader l req) !! K = Some [v].
Proof.
  revert req. induction l as [|[k0 v0] l IH]; intros req Hreq Hl; [done|].
  cbn [fold_left]. apply IH.
  - unfold http.setHeader, http.Header_Set. cbn [http.Header_ fst snd].
    destruct (decide (http.CanonicalMIMEHeaderKey k0 = K)) as [HK|HK].
    + subst K. rewrite lookup_insert_eq. f_equal. f_equal.
      apply (Hl k0 v0); [apply list_elem_of_here|done].
    + by rewrite lookup_insert_ne.
  - intros k' v' Hin. apply Hl. by apply list_elem_of_further.
Qed.

Lemma setHeader_fold_sets (l : list (string * string)) (req : http.Request Context) k v :
  (k, v) ∈ l →
  (∀ k' v', (k', v') ∈ l →
            http.CanonicalMIMEHeaderKey k' = http.CanonicalMIMEHeaderKey k → v' = v) →
  http.Header_ (fold_left http.setHeader l req) !! http.CanonicalMIMEHeaderKey k = Some [v].
Proof.
  revert req. induction l as [|[k0 v0] l IH]; intros req Hin Hl.
  { by apply elem_of_nil in Hin. }
  cbn [fold_left]. apply elem_of_cons in Hin as [[= <- <-]|Hin].
  - apply setHeader_fold_keeps.
    + unfold http.setHeader, http.Header_Set. cbn [http.Header_ fst snd].
      apply lookup_insert_eq.
    + intros k' v' Hin'. apply Hl. by apply list_elem_of_further.
  - apply IH; [done|]. intros k' v' Hin'. apply Hl. by apply list_elem_of_further.
Qed.

Lemma setHeader_fold_stays (l : list (string * string)) (req : http.Request Context) K :
  is_Some (http.Header_ req !! K) →
  is_Some (http.Header_ (fold_left http.setHeader l req) !! K).
Proof.
  revert req. induction l as [|[k0 v0] l IH]; intros req Hreq; [done|].
  cbn [fold_left]. apply IH. unfold http.setHeader, http.Header_Set.
  cbn [http.Header_ fst snd]. rewrite lookup_insert. by case_decide.
Qed.

Lemma setHeader_fold_present (l : list (string * string)) (req : http.Request Context) K :
  (∃ k v, (k, v) ∈ l ∧ http.CanonicalMIMEHeaderKey k = K) →
  is_Some (http.Header_ (fold_left http.setHeader l req) !! K).
Proof.
  revert req. induction l as [|[k0 v0] l IH]; intros req (k & v & Hin & HK).
  { by apply elem_of_nil in Hin. }
  cbn [fold_left]. apply elem_of_cons in Hin as [[= -> ->]|Hin].
  - apply setHeader_fold_stays. unfold http.setHeader, http.Header_Set.
    cbn [http.Header_ fst snd]. subst K. by rewrite lookup_insert_eq.
  - apply IH. by exists k, v.
Qed.

(** The request of [outbound] is the fresh request with the headers set. *)
Lemma outbound_request (b : HttpRequestBuilder) finalURL req :
  outbound b = Some (finalURL, req) →
  buildURL b = inl finalURL
  ∧ ∃ req0,
      http.NewRequestWithContext (ctx b) (method b) finalURL (body b) = inl req0
      ∧ req = fold_left http.setHeader (map_to_list (default ∅ (headers b))) req0.
Proof.
  unfold outbound.
  destruct (ensureHeaders_frame b) as (Hu & Hm & Hq & Hbody & _ & _ & Hctx & _ & Hh).
  replace (buildURL (ensureHeaders b)) with (buildURL b)
    by (unfold buildURL; by rewrite Hu, Hq).
  rewrite Hctx, Hm, Hbody, Hh.
  destruct (buildURL b) as [u|]; [|done].
  destruct (http.NewRequestWithContext _ _ _ _) as [req0|] eqn:Hnew; [|done].
  intros [= <- <-]. split; [done|]. by exists req0.
Qed.

Lemma NewRequest_fields (c : option Context) m u bd (req0 : http.Request Context) :
  http.NewRequestWithContext c m u bd = inl req0 →
  c = Some (http.ctx req0)
  ∧ http.Method req0 = (if String.eqb m "" then "GET" else m)
  ∧ (∃ pu, url.Parse u = inl pu ∧ http.URL req0 = url.removeEmptyPort pu)
  ∧ http.Header_ req0 = ∅
  ∧ http.Body req0 = bd.
Proof.
  unfold http.NewRequestWithContext. destruct (negb _); [done|].
  destruct c as [c|]; [|done]. destruct (url.Parse u) as [pu|]; [|done].
  intros [= <-]. repeat split. by exists pu.
Qed.

Lemma setHeader_fold_fields (l : list (string * string)) (req : http.Request Context) :
  http.ctx (fold_left http.setHeader l req) = http.ctx req
  ∧ http.Method (fold_left http.setHeader l req) = http.Method req
  ∧ http.URL (fold_left http.setHeader l req) = http.URL req
  ∧ http.Body (fold_left http.setHeader l req) = http.Body req.
Proof.
  revert req. induction l as [|kv l IH]; intros req; [done|].
  cbn [fold_left]. destruct (IH (http.setHeader req kv)) as (-> & -> & -> & ->). done.
Qed.

(** X5. The request handed to the client carries the configured headers and
    no others, each under its canonical key ([textproto]'s spelling) with its
    one value: a header of the request comes from a configured entry; a
    configured entry is on the request under its canonical key with its own
    value, unless another configured key has the same canonical spelling and
    a different value, in which case one of the two values is sent. *)
Theorem request_headers_are_the_configured (b : HttpRequestBuilder) finalURL req :
  outbound b = Some (finalURL, req) →
  let h := default ∅ (headers b) in
  (∀ K vs, http.Header_ req !! K = Some vs →
           ∃ k v, h !! k = Some v ∧ http.CanonicalMIMEHeaderKey k = K ∧ vs = [v])
  ∧ (∀ k v, h !! k = Some v →
            ∃ k' v', h !! k' = Some v'
                     ∧ http.CanonicalMIMEHeaderKey k' = http.CanonicalMIMEHeaderKey k
                     ∧ http.Header_ req !! http.CanonicalMIMEHeaderKey k = Some [v'])
  ∧ (∀ k v, h !! k = Some v →
            (∀ k' v', h !! k' = Some v' →
                      http.CanonicalMIMEHeaderKey k' = http.CanonicalMIMEHeaderKey k →
                      v' = v) →
            http.Header_ req !! http.CanonicalMIMEHeaderKey k = Some [v]).
Proof.
  intros Hout h. destruct (outbound_request b _ _ Hout) as (_ & req0 & Hnew & ->).
  apply NewRequest_fields in Hnew as (_ & _ & _ & Hempty & _). fold h.
  assert (∀ K vs,
            http.Header_ (fold_left http.setHeader (map_to_list h) req0) !! K = Some vs →
            ∃ k v, h !! k = Some v ∧ http.CanonicalMIMEHeaderKey k = K ∧ vs = [v]) as Hfrom.
  { intros K vs HK. apply setHeader_fold_from in HK as [HK|(k & v & Hin & HK & Hvs)].
    - by rewrite Hempty, lookup_empty in HK.
    - exists k, v. split; [by apply elem_of_map_to_list|done]. }
  assert (∀ k v, h !! k = Some v →
            (∀ k' v', h !! k' = Some v' →
                      http.CanonicalMIMEHeaderKey k' = http.CanonicalMIMEHeaderKey k →
                      v' = v) →
            http.Header_ (fold_left http.setHeader (map_to_list h) req0)
              !! http.CanonicalMIMEHeaderKey k = Some [v]) as Hsets.
  { intros k v Hk Huniq. apply setHeader_fold_sets; [by apply elem_of_map_to_list|].
    intros k' v' Hin. apply Huniq. by apply elem_of_map_to_list. }
  split; [exact Hfrom|]. split; [|exact Hsets].
  intros k v Hk.
  assert (is_Some (http.Header_ (fold_left http.setHeader (map_to_list h) req0)
                     !! http.CanonicalMIMEHeaderKey k)) as [vs Hvs].
  { apply setHeader_fold_present. exists k, v. split; [by apply elem_of_map_to_list|done]. }
  destruct (Hfrom _ _ Hvs) as (k' & v' & Hk' & HK' & ->). by exists k', v'.
Qed.

(** X6. The request handed to the client has the method of the builder
    ([GET] for an empty one), its context, and as URL what [url.Parse] makes
    of the composed URL, with the empty port removed from the host; on a
    builder that has been configured and not yet executed it has the body of
    the builder; and the timeout of the client is the configured one,
    whatever its value: [SetRequestTimeout] changes nothing else of what is
    sent. *)
Theorem request_carries_configuration (b : HttpRequestBuilder) finalURL req :
  outbound b = Some (finalURL, req) →
  buildURL b = inl finalURL
  ∧ (∃ pu, url.Parse finalURL = inl pu ∧ http.URL req = url.removeEmptyPort pu)
  ∧ http.Method req = (if String.eqb (method b) "" then "GET" else method b)
  ∧ ctx b = Some (http.ctx req)
  ∧ (Configured b → http.Body req = body b)
  ∧ ∀ t, outbound (SetRequestTimeout t b) = Some (finalURL, req)
         ∧ snd (Do (SetRequestTimeout t b)) = [ClientDo t req].
Proof.
  intros Hout. destruct (outbound_request b _ _ Hout) as (Hurl & req0 & Hnew & ->).
  destruct (NewRequest_fields _ _ _ _ _ Hnew) as (Hctx & Hm & Hp & _ & Hbody).
  destruct (setHeader_fold_fields (map_to_list (default ∅ (headers b))) req0)
    as (-> & -> & -> & ->).
  repeat (split; [done|]). intros t.
  assert (outbound (SetRequestTimeout t b)
          = Some (finalURL, fold_left http.setHeader (map_to_list (default ∅ (headers b))) req0))
    as Hout'.
  { rewrite <- Hout. unfold outbound, SetRequestTimeout, buildURL, ensureHeaders.
    by destruct b as [? ? [?|] ? ? ? ? ? ? ? ? ?]. }
  split; [exact Hout'|]. rewrite Do_do, (do_outbound _ _ _ Hout').
  by destruct (client_Do _ _).
Qed.

(** [do] when the URL does not compose, and when the request is refused. *)
Lemma do_early (b : HttpRequestBuilder) :
  (∀ err, buildURL b = inr err → do b = (ensureHeaders b, Some err, []))
  ∧ (∀ u e, buildURL b = inl u →
            http.NewRequestWithContext (ctx b) (method b) u (body b) = inr e →
            do b = (ensureHeaders b, Some (RequestConstructionError e), [])).
Proof.
  destruct (ensureHeaders_frame b) as (Hu & Hm & Hq & Hbody & _ & _ & Hctx & _).
  unfold do. replace (buildURL (ensureHeaders b)) with (buildURL b)
    by (unfold buildURL; by rewrite Hu, Hq).
  rewrite Hctx, Hm, Hbody. split.
  - by intros err ->.
  - by intros u e -> ->.
Qed.

(** X7. When the URL does not compose ([InvalidURL]) or the request is
    refused ([RequestConstructionError]), [Do] and [GetResult] return that
    error without calling the client, the decoder or the debug collector;
    the response stored by an earlier execution stays in the builder, while
    the measured time is overwritten. *)
Theorem early_failure_sends_nothing (b : HttpRequestBuilder) err :
  buildURL b = inr err
  ∨ (∃ u e, buildURL b = inl u
            ∧ http.NewRequestWithContext (ctx b) (method b) u (body b) = inr e
            ∧ err = RequestConstructionError e) →
  Do b = (with_execTime time_Since (ensureHeaders b), Some err, [])
  ∧ GetResult b = (with_execTime time_Since (ensureHeaders b), Ret (None, Some err), [])
  ∧ response (with_execTime time_Since (ensureHeaders b)) = response b
  ∧ ((∃ msg, err = InvalidURL msg ∧ url.Parse (url b) = inr msg)
     ∨ ∃ e, err = RequestConstructionError e).
Proof.
  intros Hearly.
  assert (do b = (ensureHeaders b, Some err, [])) as Hdo.
  { destruct (do_early b) as [Hurl Hreq].
    destruct Hearly as [Herr|(u & e & Hu & Hnew & ->)]; [by apply Hurl|by apply (Hreq u)]. }
  assert (Do b = (with_execTime time_Since (ensureHeaders b), Some err, [])) as HDo
    by (by rewrite Do_do, Hdo).
  split; [exact HDo|]. split; [unfold GetResult; by rewrite HDo|].
  split; [cbn [response with_execTime]; apply ensureHeaders_frame|].
  destruct Hearly as [Herr|(u & e & _ & _ & ->)]; [left|right; by eexists].
  unfold buildURL in Herr. case_decide; [done|].
  destruct (url.Parse (url b)) as [pu|msg]; [done|]. injection Herr as <-. by eexists.
Qed.

(** ** Invariants of the builders the package produces *)

Lemma SetJSONBody_fields v (b : HttpRequestBuilder) :
  method (fst (SetJSONBody v b)) = method b
  ∧ (body (fst (SetJSONBody v b)) = body b
     ∧ rawBodyBytes (fst (SetJSONBody v b)) = rawBodyBytes b
     ∨ ∃ data, body (fst (SetJSONBody v b)) = Some data
               ∧ rawBodyBytes (fst (SetJSONBody v b)) = data).
Proof.
  unfold SetJSONBody. destruct (json_Marshal v) as [data|]; [|by split; [|left]].
  cbn [fst]. unfold setHeader, ensureHeaders.
  destruct b as [? ? [?|] ? ? ? ? ? ? ? ? ?]; cbn; split; [done|right|done|right]; by eexists.
Qed.

Lemma SetXMLBody_fields v (b : HttpRequestBuilder) :
  method (fst (SetXMLBody v b)) = method b
  ∧ (body (fst (SetXMLBody v b)) = body b
     ∧ rawBodyBytes (fst (SetXMLBody v b)) = rawBodyBytes b
     ∨ ∃ data, body (fst (SetXMLBody v b)) = Some data
               ∧ rawBodyBytes (fst (SetXMLBody v b)) = data).
Proof.
  unfold SetXMLBody. destruct (xml_Marshal v) as [data|]; [|by split; [|left]].
  cbn [fst]. unfold setHeader, ensureHeaders.
  destruct b as [? ? [?|] ? ? ? ? ? ? ? ? ?]; cbn; split; [done|right|done|right]; by eexists.
Qed.

Lemma Configured_method (b : HttpRequestBuilder) :
  Configured b → method b ∈ constructorMethods.
Proof.
  unfold constructorMethods.
  induction 1 as [c u|c u|c u|c u|c u|h b Hb IH|q b Hb IH|t b Hb IH|f b Hb IH|v b Hb IH|v b Hb IH];
    try exact IH.
  - apply list_elem_of_here.
  - do 1 apply list_elem_of_further. apply list_elem_of_here.
  - do 2 apply list_elem_of_further. apply list_elem_of_here.
  - do 3 apply list_elem_of_further. apply list_elem_of_here.
  - do 4 apply list_elem_of_further. apply list_elem_of_here.
  - by rewrite (proj1 (SetJSONBody_fields v b)).
  - by rewrite (proj1 (SetXMLBody_fields v b)).
Qed.

Lemma Built_method (b : HttpRequestBuilder) : Built b → method b ∈ constructorMethods.
Proof.
  induction 1 as [b Hb|h b Hb IH|q b Hb IH|t b Hb IH|f b Hb IH|v b Hb IH|v b Hb IH|b Hb IH
                 |b Hb IH]; try done.
  - by apply Configured_method.
  - by rewrite (proj1 (SetJSONBody_fields v b)).
  - by rewrite (proj1 (SetXMLBody_fields v b)).
  - rewrite Do_do. cbn [fst method with_execTime].
    destruct (do_state b) as [r ->]. cbn [method with_response].
    by rewrite (proj1 (proj2 (ensureHeaders_frame b))).
  - destruct (GetResult_state b) as [r ->]. rewrite Do_do. cbn [fst method with_execTime
      with_response]. destruct (do_state b) as [r' ->]. cbn [method with_response].
    by rewrite (proj1 (proj2 (ensureHeaders_frame b))).
Qed.

(** X8. Whatever is done with a builder through the exported functions, its
    method stays one of the five constants of the constructors, each of
    which [net/http] accepts; so [Do] never fails on the method: when it
    returns a [RequestConstructionError], either the context is [nil] or the
    composed URL does not parse. *)
Theorem built_method_is_valid (b : HttpRequestBuilder) :
  Built b →
  method b ∈ constructorMethods
  ∧ http.validMethod (method b) = true
  ∧ ∀ e, snd (fst (Do b)) = Some (RequestConstructionError e) →
         (e = http.NilContext ∧ ctx b = None)
         ∨ ∃ u msg, e = http.ParseError msg ∧ buildURL b = inl u ∧ url.Parse u = inr msg.
Proof.
  intros Hb. pose proof (Built_method b Hb) as Hm.
  assert (http.validMethod (method b) = true ∧ String.eqb (method b) "" = false)
    as [Hvalid Hne].
  { unfold constructorMethods in Hm.
    repeat (apply elem_of_cons in Hm as [->|Hm]; [by split|]). by apply elem_of_nil in Hm. }
  split; [done|]. split; [done|]. intros e. rewrite Do_do. cbn [fst snd].
  destruct (buildURL b) as [u|err] eqn:Hbuild.
  - destruct (http.NewRequestWithContext (ctx b) (method b) u (body b)) as [req0|e'] eqn:Hreq.
    + assert (outbound b = Some (u, fold_left http.setHeader
                                      (map_to_list (default ∅ (headers b))) req0)) as Hout.
      { unfold outbound.
        destruct (ensureHeaders_frame b) as (Hu & Hm' & Hq & Hbody & _ & _ & Hctx & _ & Hh).
        replace (buildURL (ensureHeaders b)) with (buildURL b)
          by (unfold buildURL; by rewrite Hu, Hq).
        by rewrite Hbuild, Hctx, Hm', Hbody, Hreq, Hh. }
      rewrite (do_outbound b _ _ Hout). by destruct (client_Do _ _).
    + rewrite (proj2 (do_early b) u e' Hbuild Hreq). cbn [fst snd]. intros [= <-].
      unfold http.NewRequestWithContext in Hreq. rewrite Hne, Hvalid in Hreq.
      cbn [negb] in Hreq. destruct (ctx b) as [c|]; [|left; by injection Hreq as <-].
      destruct (url.Parse u) as [pu|msg] eqn:Hp; [done|].
      injection Hreq as <-. right. by exists u, msg.
  - rewrite (proj1 (do_early b) err Hbuild). cbn [fst snd]. intros [= ->].
    unfold buildURL in Hbuild. case_decide; [done|]. by destruct (url.Parse (url b)).
Qed.

Lemma Configured_body (b : HttpRequestBuilder) :
  Configured b →
  (body b = None ∧ rawBodyBytes b = "") ∨ body b = Some (rawBodyBytes b).
Proof.
  induction 1 as [c u|c u|c u|c u|c u|h b Hb IH|q b Hb IH|t b Hb IH|f b Hb IH|v b Hb IH|v b Hb IH];
    try (by left); try done.
  - destruct (SetJSONBody_fields v b) as [_ [[-> ->]|(data & -> & ->)]]; [done|by right].
  - destruct (SetXMLBody_fields v b) as [_ [[-> ->]|(data & -> & ->)]]; [done|by right].
Qed.

(** X9. On a builder that has been configured and not yet executed, the
    bytes kept for the debug statement are the body of the request: both
    are absent, or the request carries exactly the bytes that the statement
    will show, whichever body helper was called last with success. *)
Theorem debug_body_is_the_body_sent (b : HttpRequestBuilder) finalURL req :
  Configured b →
  outbound b = Some (finalURL, req) →
  (http.Body req = None ∧ rawBodyBytes b = "")
  ∨ http.Body req = Some (rawBodyBytes b).
Proof.
  intros Hb Hout. rewrite (outbound_Body b _ _ Hout). by apply Configured_body.
Qed.

(** X10. [SetRequestHeaders] replaces the headers wholesale, also the
    [Content-Type] that a body helper has set before it: after a body helper
    followed by [SetRequestHeaders(h)] the body is still the serialized
    value, the content type is whatever [h] holds under [Content-Type], and
    the request goes out with that body and without any [Content-Type]
    header unless a key of [h] is spelled like it. *)
Theorem headers_after_body_replace_ContentType k v data h (b : HttpRequestBuilder) :
  Marshal k v = inl data →
  let b' := SetRequestHeaders h (fst (SetBody k v b)) in
  body b' = Some data
  ∧ contentType b' = h ≫= (fun m => m !! httpheader.ContentType)
  ∧ ∀ finalURL req,
      outbound b' = Some (finalURL, req) →
      http.Body req = Some data
      ∧ ((∀ k0 v0, default ∅ h !! k0 = Some v0 →
                   http.CanonicalMIMEHeaderKey k0 ≠ "Content-Type") →
         http.Header_ req !! "Content-Type" = None).
Proof.
  intros Hok b'.
  assert (body b' = Some data) as Hbody.
  { unfold b', SetRequestHeaders. cbn [body with_headers].
    destruct k; unfold Marshal, SetBody, SetJSONBody, SetXMLBody in *; rewrite Hok;
      cbn [fst]; unfold setHeader, ensureHeaders;
      by destruct b as [? ? [?|] ? ? ? ? ? ? ? ? ?]. }
  split; [exact Hbody|]. split; [reflexivity|].
  intros finalURL req Hout. split; [by rewrite (outbound_Body b' _ _ Hout)|].
  intros Hnone. destruct (outbound_request b' _ _ Hout) as (_ & req0 & Hnew & ->).
  apply NewRequest_fields in Hnew as (_ & _ & _ & Hempty & _).
  apply eq_None_not_Some. intros [vs Hvs].
  apply setHeader_fold_from in Hvs as [Hvs|(k0 & v0 & Hin & HK & _)].
  - by rewrite Hempty, lookup_empty in Hvs.
  - apply elem_of_map_to_list in Hin. by apply (Hnone k0 v0).
Qed.


(** ** The composed query read back *)

(** X12. The query string that [buildURL] writes reads back, by
    [url.ParseQuery] and without error, as exactly the values it encodes:
    every configured parameter with its one value, whatever characters key
    and value contain, and every other key of the base URL with the values
    it had there. *)
Theorem composed_query_parses_back (b : HttpRequestBuilder) (Q : gmap string string) u :
  queryParams b = Some Q →
  Q ≠ ∅ →
  url.Parse (url b) = inl u →
  ∃ q : url.Values,
    buildURL b = inl (url.String_ (url.set_RawQuery u (url.Encode q)))
    ∧ url.ParseQuery (url.Encode q) = (q, None)
    ∧ (∀ k v, Q !! k = Some v → fst (url.ParseQuery (url.Encode q)) !! k = Some [v])
    ∧ (∀ k, Q !! k = None →
            fst (url.ParseQuery (url.Encode q)) !! k = url.Query u !! k).
Proof.
  intros HQ Hne Hp. exists (setAll (url.Query u) (map_to_list Q)).
  assert (url.ParseQuery (url.Encode (setAll (url.Query u) (map_to_list Q)))
          = (setAll (url.Query u) (map_to_list Q), None)) as Hback.
  { apply ParseQuery_Encode. intros k xs. rewrite setAll_map_lookup.
    destruct (Q !! k) as [v|]; [by intros [= <-]|]. apply ParseQuery_nonempty. }
  split; [|split; [exact Hback|]].
  - unfold buildURL. rewrite HQ, decide_False by (by rewrite len_zero_iff). by rewrite Hp.
  - rewrite Hback. cbn [fst].
    split; intros k; [intros v Hk|intros Hk]; by rewrite setAll_map_lookup, Hk.
Qed.

End Requests.

(** * Further worked executions *)

Section WorkedFurther.
Import sample.

(** X3 at work: a 503 with a page of text, lenient decoding, and a debug
    collector on the context: the statement is recorded before the status
    error is returned. *)
Lemma debug_statement_recorded_witness :
  recorded (snd (GetResult (tracedLenient (answers unavailable))))
  = [{| st_Time := "1500000ns"; st_Status := 503; st_Timeout := ""; st_Method := "GET";
        st_Url := "https://api.example.com/v1/items?page=1"; st_Error := "";
        st_Body := ""; st_QueryParams := Some ({["page" := "1"]} : gmap string string);
        st_Headers := Some ∅; st_Response := None; st_Duration := 1500000 |}]
  ∧ snd (fst (GetResult (tracedLenient (answers unavailable))))
    = Ret (None, Some (ServerError "http GET https://api.example.com/v1/items?page=1 -> 503")).
Proof.
  split; [|vm_compute; reflexivity].
  rewrite (debug_statement_recorded (tracedLenient (answers unavailable)) itemsPage1
             tracedRequest unavailable zero
             (Some json.SyntaxError)
             ltac:(vm_compute; reflexivity) ltac:(vm_compute; reflexivity)
             ltac:(vm_compute; reflexivity) ltac:(right; reflexivity)).
  vm_compute. reflexivity.
Defined.

(** X5 at work: the headers reach the request under their canonical
    spelling. *)
Lemma request_headers_are_the_configured_witness :
  outbound (spelledGet unreachable) = Some (itemsURL, spelledRequest)
  ∧ http.Header_ spelledRequest !! http.CanonicalMIMEHeaderKey "x-request-id"
    = Some ["abc-123"]
  ∧ http.CanonicalMIMEHeaderKey "x-request-id" = "X-Request-Id"
  ∧ http.CanonicalMIMEHeaderKey "ACCEPT" = "Accept".
Proof.
  assert (outbound (spelledGet unreachable) = Some (itemsURL, spelledRequest)) as Hout
    by (vm_compute; reflexivity).
  split; [exact Hout|]. split; [|split; reflexivity].
  refine (proj2 (proj2 (request_headers_are_the_configured (spelledGet unreachable) itemsURL
                          spelledRequest Hout)) "x-request-id" "abc-123" _ _).
  { clear. vm_compute. reflexivity. }
  clear. intros k' v' Hk' Hc.
    change (default ∅ (headers (spelledGet unreachable))) with spelledHeaders in Hk'.
    apply elem_of_map_to_list in Hk'.
    replace (map_to_list spelledHeaders)
      with [("ACCEPT", "text/plain"); ("x-request-id", "abc-123")] in Hk'
      by (vm_compute; reflexivity).
    apply elem_of_cons in Hk' as [[= -> ->]|Hk'].
    - revert Hc. vm_compute. intros [=].
    - by apply list_elem_of_singleton in Hk' as [= -> ->].
Defined.

(** X6 at work: a negative timeout reaches the client as it is, and the
    request has the URL that the composed one parses to. *)
Lemma request_carries_configuration_witness :
  snd (Do (SetRequestTimeout (-5) (getItems unreachable)))
  = [ClientDo (W := world Z unreachable) (-5) itemsRequest]
  ∧ (∃ pu, url.Parse itemsPage1 = inl pu ∧ http.URL itemsRequest = url.removeEmptyPort pu)
  ∧ http.Method itemsRequest = "GET"
  ∧ http.Body itemsRequest = body (getItems unreachable).
Proof.
  pose proof (request_carries_configuration (getItems unreachable) itemsPage1 itemsRequest)
    as H.
  destruct H as (_ & Hp & _ & _ & Hbody & Ht); [vm_compute; reflexivity|].
  split; [exact (proj2 (Ht (-5)))|]. split; [exact Hp|]. split; [reflexivity|].
  apply Hbody. unfold getItems. apply Configured_query, Configured_get.
Defined.

(** X7 at work: query parameters force the parse of a base URL with a line
    feed in it; nothing is sent. *)
Lemma early_failure_sends_nothing_witness :
  GetResult (badQuery unreachable)
  = (with_execTime 1500000 (ensureHeaders (badQuery unreachable)),
     Ret (None, Some (InvalidURL "net/url: invalid control character in URL")), []).
Proof.
  refine (proj1 (proj2 (early_failure_sends_nothing (badQuery unreachable)
                          (InvalidURL "net/url: invalid control character in URL") _))).
  left. vm_compute. reflexivity.
Defined.

(** X8 at work, on a builder that has been through [GetResult]. *)
Lemma built_method_is_valid_witness :
  http.validMethod (method (fst (fst (GetResult (getItems (answers notFound)))))) = true.
Proof.
  refine (proj1 (proj2 (built_method_is_valid
                          (fst (fst (GetResult (getItems (answers notFound))))) _))).
  apply Built_GetResult, Built_configured. unfold getItems.
  apply Configured_query, Configured_get.
Defined.

(** X9 at work: the body of the request of [postSeven] and the bytes kept for
    the statement. *)
Lemma debug_body_is_the_body_sent_witness :
  http.Body (postRequest {["Content-Type" := ["application/json"]]})
  = Some (rawBodyBytes (postSeven unreachable))
  ∧ rawBodyBytes (postSeven unreachable) = "7".
Proof.
  split; [|reflexivity].
  destruct (debug_body_is_the_body_sent (postSeven unreachable) itemsURL
              (postRequest {["Content-Type" := ["application/json"]]})) as [[Hn _]|Hs].
  - unfold postSeven. apply Configured_json, Configured_post.
  - vm_compute. reflexivity.
  - discriminate Hn.
  - exact Hs.
Defined.

(** X10 at work: the body first, the headers after it; the JSON body goes out
    without a content type. *)
Lemma headers_after_body_replace_ContentType_witness :
  outbound (authorizedPost unreachable)
  = Some (itemsURL, postRequest {["Authorization" := ["Bearer token"]]})
  ∧ http.Body (postRequest {["Authorization" := ["Bearer token"]]}) = Some "7"
  ∧ http.Header_ (postRequest {["Authorization" := ["Bearer token"]]}) !! "Content-Type"
    = None
  ∧ contentType (authorizedPost unreachable) = None.
Proof.
  assert (outbound (authorizedPost unreachable)
          = Some (itemsURL, postRequest {["Authorization" := ["Bearer token"]]})) as Hout
    by (vm_compute; reflexivity).
  split; [exact Hout|].
  destruct (headers_after_body_replace_ContentType (W := world Z unreachable) JSONBody
              (GoInt 7) "7" (Some {["Authorization" := "Bearer token"]})
              (NewPostHttpRequestBuilder (W := world Z unreachable) (Some false) itemsURL)
              ltac:(vm_compute; reflexivity)) as (_ & Hct & Hreq).
  destruct (Hreq itemsURL (postRequest {["Authorization" := ["Bearer token"]]}) Hout)
    as (Hbody & Hnone).
  split; [exact Hbody|]. split; [|clear; vm_compute; reflexivity].
  apply Hnone. clear. intros k0 v0 Hk0.
  apply elem_of_map_to_list in Hk0.
  replace (map_to_list (default ∅ (Some ({["Authorization" := "Bearer token"]}
                                           : gmap string string))))
    with [("Authorization", "Bearer token")] in Hk0 by (vm_compute; reflexivity).
  apply list_elem_of_singleton in Hk0 as [= -> ->]. vm_compute. intros [=].
Defined.


(** X12 at work: a value with a space and an ampersand comes back as it was
    configured. *)
Lemma composed_query_parses_back_witness :
  ∃ q : url.Values,
    buildURL (searchItems unreachable)
    = inl (url.String_ (url.set_RawQuery searchBase (url.Encode q)))
    ∧ fst (url.ParseQuery (url.Encode q)) !! "q" = Some ["a b&c"]
    ∧ snd (url.ParseQuery (url.Encode q)) = None.
Proof.
  destruct (composed_query_parses_back (searchItems unreachable)
              {["page" := "1"; "q" := "a b&c"]} searchBase)
    as (q & Hb & Hback & Hset & _).
  - vm_compute. reflexivity.
  - clear. vm_compute. intros [=].
  - vm_compute. reflexivity.
  - exists q. split; [exact Hb|]. split; [|by rewrite Hback].
    apply Hset. clear. vm_compute. reflexivity.
Defined.

End WorkedFurther.
